(** * Clinic Management API: appointment scheduling and list filters

    A shallow embedding of [main.py] and [schemas.py].  The handlers are
    functions in a small state-and-exception monad over the document
    store; [datetime] values are instants on the proleptic Gregorian time
    line; query filters are finite maps from field names to clauses. *)

From Stdlib Require Import ZArith Lia Bool List Ascii String.
From Stdlib Require Import Floats.PrimFloat.
From stdpp Require Import base option list strings gmap fin_maps.

Local Open Scope string_scope.
Local Open Scope Z_scope.

(** ** Exceptions and results *)

(** The exceptions the handlers can raise.  [HTTPException] is FastAPI's;
    the others are Python built-ins that no handler catches unless said
    otherwise. *)
Inductive exn : Type :=
  | HTTPException (status_code : Z) (detail : string)
  | ValueError
  | OverflowError
  | StoreUnavailable.

Inductive result (A : Type) : Type :=
  | Ok (a : A)
  | Raise (e : exn).
Arguments Ok {A} a.
Arguments Raise {A} e.

(** The status FastAPI answers with: an [HTTPException] carries its own
    code, any other exception escaping a handler is a 500. *)
Definition http_status (e : exn) : Z :=
  match e with
  | HTTPException c _ => c
  | _ => 500
  end.

Definition is_ValueError (e : exn) : bool :=
  match e with ValueError => true | _ => false end.

(** ** [datetime] and [timedelta]

    A naive [datetime] is modelled by the number of microseconds since
    0001-01-01T00:00:00; Python orders datetimes by their field tuples,
    which is the order of these instants.  A [timedelta] is a signed
    number of microseconds. *)
Module Datetime.

Definition datetime : Type := Z.
Definition timedelta : Type := Z.

Definition MINYEAR : Z := 1.
Definition MAXYEAR : Z := 9999.

Definition _is_leap (year : Z) : bool :=
  (year mod 4 =? 0) && (negb (year mod 100 =? 0) || (year mod 400 =? 0)).

Definition _days_before_year (year : Z) : Z :=
  let y := year - 1 in
  y * 365 + y / 4 - y / 100 + y / 400.

Definition _DAYS_IN_MONTH : list Z :=
  [-1; 31; 28; 31; 30; 31; 30; 31; 31; 30; 31; 30; 31].

Definition _DAYS_BEFORE_MONTH : list Z :=
  [-1; 0; 31; 59; 90; 120; 151; 181; 212; 243; 273; 304; 334].

Definition _days_in_month (year month : Z) : Z :=
  if (month =? 2) && _is_leap year then 29
  else nth (Z.to_nat month) _DAYS_IN_MONTH 0.

Definition _days_before_month (year month : Z) : Z :=
  nth (Z.to_nat month) _DAYS_BEFORE_MONTH 0
  + (if (2 <? month) && _is_leap year then 1 else 0).

Definition _ymd2ord (year month day : Z) : Z :=
  _days_before_year year + _days_before_month year month + day.

Definition _check_date_fields (year month day : Z) : bool :=
  (MINYEAR <=? year) && (year <=? MAXYEAR)
  && (1 <=? month) && (month <=? 12)
  && (1 <=? day) && (day <=? _days_in_month year month).

Definition _check_time_fields (hour minute : Z) : bool :=
  (0 <=? hour) && (hour <=? 23) && (0 <=? minute) && (minute <=? 59).

Definition us_per_minute : Z := 60000000.
Definition us_per_day : Z := 86400000000.

(** [datetime(year, month, day, hour, minute)] *)
Definition mk_datetime (year month day hour minute : Z) : result datetime :=
  if _check_date_fields year month day && _check_time_fields hour minute
  then Ok ((_ymd2ord year month day - 1) * us_per_day
           + (hour * 60 + minute) * us_per_minute)
  else Raise ValueError.

(** 0001-01-01T00:00:00 and 9999-12-31T23:59:59.999999 *)
Definition datetime_min : datetime := 0.
Definition datetime_max : datetime :=
  _ymd2ord MAXYEAR 12 31 * us_per_day - 1.

(** [timedelta(minutes=n)] and [timedelta(days=n)]: a timedelta holds at
    most 999999999 days in absolute value. *)
Definition mk_timedelta (us : Z) : result timedelta :=
  if (-999999999 * us_per_day <=? us) && (us <? 1000000000 * us_per_day)
  then Ok us else Raise OverflowError.

Definition timedelta_minutes (n : Z) : result timedelta :=
  mk_timedelta (n * us_per_minute).
Definition timedelta_days (n : Z) : result timedelta :=
  mk_timedelta (n * us_per_day).

(** [d + delta]: the sum must still name a year in 1..9999. *)
Definition add (d : datetime) (delta : timedelta) : result datetime :=
  if (datetime_min <=? d + delta) && (d + delta <=? datetime_max)
  then Ok (d + delta) else Raise OverflowError.

End Datetime.
Import Datetime.

Global Instance result_ret : MRet result := fun A a => Ok a.
Global Instance result_bind : MBind result := fun A B f m =>
  match m with
  | Ok a => f a
  | Raise e => Raise e
  end.

(** [try: body except <handled>: raise e'] *)
Definition try_except {A : Type} (body : result A) (handled : exn -> bool)
    (e' : exn) : result A :=
  match body with
  | Ok a => Ok a
  | Raise e => if handled e then Raise e' else Raise e
  end.

(** ** [datetime.strptime]

    The standard library turns the format into a regular expression with
    one named group per directive, matches it against the head of the
    input with a backtracking matcher, rejects unconverted trailing data
    and builds the datetime from the groups.  Strings are sequences of
    ASCII characters. *)
Module Strptime.

Definition charclass : Type := ascii -> bool.

Definition in_range (lo hi : ascii) : charclass := fun c =>
  ((N_of_ascii lo <=? N_of_ascii c) && (N_of_ascii c <=? N_of_ascii hi))%N.

(** [\d] and [\s] *)
Definition digit : charclass := in_range "0" "9".
Definition space : charclass := fun c =>
  let n := N_of_ascii c in
  (((9 <=? n) && (n <=? 13)) || ((28 <=? n) && (n <=? 32)))%N.

Inductive regex : Type :=
  | Lit (c : ascii)
  | Class (p : charclass)
  | Cat (r1 r2 : regex)
  | Or (r1 r2 : regex)
  | Plus (p : charclass)
  | Group (name : string) (r : regex).

Section Matcher.
Context {A : Type}.

(** Greedy repetition of a character class: longest run first, then
    shorter ones while the rest of the pattern fails. *)
Fixpoint star (p : charclass) (s : string) (k : string -> option A)
    : option A :=
  match s with
  | String c s' =>
      if p c then
        match star p s' k with
        | Some a => Some a
        | None => k s
        end
      else k s
  | EmptyString => k s
  end.

Fixpoint rmatch (r : regex) (s : string) (g : gmap string string)
    (k : string -> gmap string string -> option A) : option A :=
  match r with
  | Lit c =>
      match s with
      | String c' s' => if Ascii.eqb c c' then k s' g else None
      | EmptyString => None
      end
  | Class p =>
      match s with
      | String c' s' => if p c' then k s' g else None
      | EmptyString => None
      end
  | Cat r1 r2 => rmatch r1 s g (fun s' g' => rmatch r2 s' g' k)
  | Or r1 r2 =>
      match rmatch r1 s g k with
      | Some a => Some a
      | None => rmatch r2 s g k
      end
  | Plus p =>
      match s with
      | String c' s' => if p c' then star p s' (fun s'' => k s'' g) else None
      | EmptyString => None
      end
  | Group name r1 =>
      rmatch r1 s g (fun s' g' =>
        k s' (<[name := substring 0 (String.length s - String.length s') s]> g'))
  end.
End Matcher.

(** [format_regex.match(data_string)]: the unconsumed rest and the
    group dictionary of the first match found. *)
Definition re_match (r : regex) (s : string)
    : option (string * gmap string string) :=
  rmatch r s ∅ (fun rest g => Some (rest, g)).

Definition d2 (r1 r2 : regex) : regex := Cat r1 r2.
Definition rng (lo hi : ascii) : regex := Class (in_range lo hi).
Definition any_digit : regex := Class digit.

(** The directive table of [TimeRE], for the directives this program's
    formats use:
    - [%Y]: [\d\d\d\d]
    - [%m]: [1[0-2]|0[1-9]|[1-9]]
    - [%d]: [3[0-1]|[1-2]\d|0[1-9]|[1-9]| [1-9]]
    - [%H]: [2[0-3]|[0-1]\d|\d]
    - [%M]: [[0-5]\d|\d] *)
Definition directive (c : ascii) : option regex :=
  if Ascii.eqb c "Y" then
    Some (Group "Y" (Cat any_digit (Cat any_digit (Cat any_digit any_digit))))
  else if Ascii.eqb c "m" then
    Some (Group "m" (Or (d2 (Lit "1") (rng "0" "2"))
                    (Or (d2 (Lit "0") (rng "1" "9")) (rng "1" "9"))))
  else if Ascii.eqb c "d" then
    Some (Group "d" (Or (d2 (Lit "3") (rng "0" "1"))
                    (Or (d2 (rng "1" "2") any_digit)
                    (Or (d2 (Lit "0") (rng "1" "9"))
                    (Or (rng "1" "9") (d2 (Lit " ") (rng "1" "9")))))))
  else if Ascii.eqb c "H" then
    Some (Group "H" (Or (d2 (Lit "2") (rng "0" "3"))
                    (Or (d2 (rng "0" "1") any_digit) any_digit)))
  else if Ascii.eqb c "M" then
    Some (Group "M" (Or (d2 (rng "0" "5") any_digit) any_digit))
  else None.

Definition seq_opt (r : regex) (rest : option (option regex))
    : option (option regex) :=
  match rest with
  | None => None
  | Some None => Some (Some r)
  | Some (Some r') => Some (Some (Cat r r'))
  end.

(** [TimeRE.pattern]: every run of whitespace in the format becomes
    [\s+], every directive its group, any other character itself.  The
    outer [None] is a bad or stray directive; the inner [None] is the
    empty pattern. *)
Fixpoint pattern (format : string) (in_space : bool)
    : option (option regex) :=
  match format with
  | EmptyString => Some None
  | String c rest =>
      if space c then
        if in_space then pattern rest true
        else seq_opt (Plus space) (pattern rest true)
      else if Ascii.eqb c "%" then
        match rest with
        | EmptyString => None
        | String d rest' =>
            if Ascii.eqb d "%" then seq_opt (Lit "%") (pattern rest' false)
            else
              match directive d with
              | None => None
              | Some r => seq_opt r (pattern rest' false)
              end
        end
      else seq_opt (Lit c) (pattern rest false)
  end.

Fixpoint digits_value (s : string) (acc : Z) : option Z :=
  match s with
  | EmptyString => Some acc
  | String c s' =>
      if digit c then digits_value s' (acc * 10 + (Z.of_N (N_of_ascii c) - 48))
      else None
  end.

Fixpoint lstrip (s : string) : string :=
  match s with
  | String c s' => if space c then lstrip s' else s
  | EmptyString => s
  end.

(** [int(s)] on what a directive group can hold: decimal digits after
    optional leading blanks. *)
Definition py_int (s : string) : result Z :=
  match lstrip s with
  | EmptyString => Raise ValueError
  | t => match digits_value t 0 with
         | Some n => Ok n
         | None => Raise ValueError
         end
  end.

Definition group_int (g : gmap string string) (name : string) (default : Z)
    : result Z :=
  match g !! name with
  | Some s => py_int s
  | None => Ok default
  end.

(** [datetime.strptime(data_string, format)] *)
Definition strptime (data_string format : string) : result datetime :=
  match pattern format false with
  | None => Raise ValueError
  | Some None =>
      if String.eqb data_string "" then mk_datetime 1900 1 1 0 0
      else Raise ValueError
  | Some (Some re) =>
      match re_match re data_string with
      | None => Raise ValueError
      | Some (rest, g) =>
          if negb (String.eqb rest "") then Raise ValueError
          else
            year ← group_int g "Y" 1900;
            month ← group_int g "m" 1;
            day ← group_int g "d" 1;
            hour ← group_int g "H" 0;
            minute ← group_int g "M" 0;
            mk_datetime year month day hour minute
      end
  end.

End Strptime.
Import Strptime.

(** ** Schemas ([schemas.py]) *)

Module InvoiceItem.
Record t : Type := mk
  { name : string;
    qty : Z;
    unit_price : float }.
End InvoiceItem.

(** A field of a stored document. *)
Inductive value : Type :=
  | VNone
  | VStr (s : string)
  | VInt (n : Z)
  | VFloat (f : float)
  | VDate (d : datetime)
  | VItems (items : list InvoiceItem.t).

Module Appointment.
Inductive Status : Type := scheduled | checked_in | completed | cancelled.

Definition status_str (s : Status) : string :=
  match s with
  | scheduled => "scheduled"
  | checked_in => "checked_in"
  | completed => "completed"
  | cancelled => "cancelled"
  end.

Record t : Type := mk
  { clinic_id : string;
    doctor_id : string;
    patient_id : string;
    starts_at : datetime;
    ends_at : datetime;
    reason : option string;
    status : Status }.

(** [Appointment(...)] called without [status]: the field default. *)
Definition new (clinic_id doctor_id patient_id : string)
    (starts_at ends_at : datetime) (reason : option string) : t :=
  mk clinic_id doctor_id patient_id starts_at ends_at reason scheduled.
End Appointment.

Module Invoice.
Inductive Status : Type := unpaid | paid | void.

Definition status_str (s : Status) : string :=
  match s with
  | unpaid => "unpaid"
  | paid => "paid"
  | void => "void"
  end.

Record t : Type := mk
  { clinic_id : string;
    appointment_id : string;
    patient_id : string;
    doctor_id : string;
    items : list InvoiceItem.t;
    discount : float;
    tax_rate : float;
    status : Status }.

(** [Invoice(...)] called without [status]: the field default. *)
Definition new (clinic_id appointment_id patient_id doctor_id : string)
    (items : list InvoiceItem.t) (discount tax_rate : float) : t :=
  mk clinic_id appointment_id patient_id doctor_id items discount tax_rate
     unpaid.
End Invoice.

Module Payment.
Inductive Method : Type := cash | card | transfer | insurance.

Definition method_str (m : Method) : string :=
  match m with
  | cash => "cash"
  | card => "card"
  | transfer => "transfer"
  | insurance => "insurance"
  end.

Record t : Type := mk
  { clinic_id : string;
    invoice_id : string;
    amount : float;
    method : Method;
    notes : option string }.
End Payment.

Definition opt_str (o : option string) : value :=
  match o with
  | Some s => VStr s
  | None => VNone
  end.

(** ** Filter expressions

    A filter maps a field name to a clause: a plain value (equality) or a
    dictionary of comparison operators, as in
    [{"doctor_id": d, "starts_at": {"$lt": e}}]. *)
Inductive clause : Type :=
  | CEq (v : value)
  | COps (ops : gmap string value).

Definition value_eqb (q v : value) : bool :=
  match q, v with
  | VNone, VNone => true
  | VStr a, VStr b => String.eqb a b
  | VInt a, VInt b => a =? b
  | VFloat a, VFloat b => PrimFloat.eqb a b
  | VDate a, VDate b => a =? b
  | _, _ => false
  end.

(** A comparison operator against a bound; only values of the bound's own
    type compare. *)
Definition op_holds (op : string) (bound v : value) : bool :=
  match bound, v with
  | VDate b, VDate x | VInt b, VInt x =>
      if String.eqb op "$lt" then x <? b
      else if String.eqb op "$lte" then x <=? b
      else if String.eqb op "$gt" then b <? x
      else if String.eqb op "$gte" then b <=? x
      else false
  | _, _ => false
  end.

Definition clause_holds (c : clause) (field : option value) : bool :=
  match c, field with
  | CEq q, Some v => value_eqb q v
  | CEq q, None => value_eqb q VNone
  | COps ops, Some v =>
      forallb (fun kb => op_holds kb.1 kb.2 v) (map_to_list ops)
  | COps _, None => false
  end.

(** A document matches a filter when every clause holds of its field;
    the empty filter matches everything. *)
Definition matches (query : gmap string clause) (doc : gmap string value)
    : bool :=
  forallb (fun kc => clause_holds kc.2 (doc !! kc.1)) (map_to_list query).

(** ** The document store *)

Definition ObjectId : Type := N.

(** The collections the handlers below read and write, each a sequence of
    documents with their store-assigned identifiers, and the next
    identifier the store will hand out. *)
Record Database : Type := mkDatabase
  { appointments : list (ObjectId * Appointment.t);
    invoices : list (ObjectId * Invoice.t);
    payments : list (ObjectId * Payment.t);
    next_id : ObjectId }.

(** A schema class with its collection (the lowercased class name) and
    its dictionary form. *)
Class Collection (A : Type) : Type :=
  { collection_name : string;
    model_dump : A -> gmap string value;
    docs : Database -> list (ObjectId * A);
    insert_one : ObjectId * A -> Database -> Database }.

Global Instance appointment_collection : Collection Appointment.t :=
  {| collection_name := "appointment";
     model_dump a := list_to_map
       [ ("clinic_id", VStr (Appointment.clinic_id a));
         ("doctor_id", VStr (Appointment.doctor_id a));
         ("patient_id", VStr (Appointment.patient_id a));
         ("starts_at", VDate (Appointment.starts_at a));
         ("ends_at", VDate (Appointment.ends_at a));
         ("reason", opt_str (Appointment.reason a));
         ("status", VStr (Appointment.status_str (Appointment.status a))) ];
     docs := appointments;
     insert_one d st :=
       mkDatabase (appointments st ++ [d]) (invoices st) (payments st)
                  (N.succ (next_id st)) |}.

Global Instance invoice_collection : Collection Invoice.t :=
  {| collection_name := "invoice";
     model_dump i := list_to_map
       [ ("clinic_id", VStr (Invoice.clinic_id i));
         ("appointment_id", VStr (Invoice.appointment_id i));
         ("patient_id", VStr (Invoice.patient_id i));
         ("doctor_id", VStr (Invoice.doctor_id i));
         ("items", VItems (Invoice.items i));
         ("discount", VFloat (Invoice.discount i));
         ("tax_rate", VFloat (Invoice.tax_rate i));
         ("status", VStr (Invoice.status_str (Invoice.status i))) ];
     docs := invoices;
     insert_one d st :=
       mkDatabase (appointments st) (invoices st ++ [d]) (payments st)
                  (N.succ (next_id st)) |}.

Global Instance payment_collection : Collection Payment.t :=
  {| collection_name := "payment";
     model_dump p := list_to_map
       [ ("clinic_id", VStr (Payment.clinic_id p));
         ("invoice_id", VStr (Payment.invoice_id p));
         ("amount", VFloat (Payment.amount p));
         ("method", VStr (Payment.method_str (Payment.method p)));
         ("notes", opt_str (Payment.notes p)) ];
     docs := payments;
     insert_one d st :=
       mkDatabase (appointments st) (invoices st) (payments st ++ [d])
                  (N.succ (next_id st)) |}.

(** Handlers run against the process-wide handle [db], which is [None]
    when the store is not reachable. *)
Definition M (A : Type) : Type :=
  option Database -> result A * option Database.

Global Instance M_ret : MRet M := fun A a db => (Ok a, db).
Global Instance M_bind : MBind M := fun A B f m db =>
  match m db with
  | (Ok a, db') => f a db'
  | (Raise e, db') => (Raise e, db')
  end.

Definition lift {A : Type} (r : result A) : M A := fun db => (r, db).
Definition raise {A : Type} (e : exn) : M A := fun db => (Raise e, db).

Definition doc_matches {A : Type} `{Collection A}
    (query : gmap string clause) (d : ObjectId * A) : bool :=
  matches query (model_dump d.2).

(** Modelled from the spec: [database.get_documents] is not among the
    source files.  Query returns all matching records with the store's
    identifier; no pagination, sorting or limit; if the store is
    unreachable it returns an empty sequence rather than failing. *)
Definition get_documents {A : Type} `{Collection A}
    (filter_dict : gmap string clause) : M (list (ObjectId * A)) :=
  fun db =>
    match db with
    | Some st => (Ok (List.filter (doc_matches filter_dict) (docs st)), db)
    | None => (Ok [], db)
    end.

(** Modelled from the spec: [database.create_document] is not among the
    source files.  Insert stores the schema-validated record and returns
    its store-assigned unique identifier; an unavailable store propagates
    as a failure on this write path. *)
Definition create_document {A : Type} `{Collection A} (data : A)
    : M ObjectId :=
  fun db =>
    match db with
    | Some st => (Ok (next_id st), Some (insert_one (next_id st, data) st))
    | None => (Raise StoreUnavailable, db)
    end.

(** ** Handlers ([main.py]) *)

(** Python truthiness of an [Optional[str]] parameter. *)
Definition truthy (o : option string) : bool :=
  match o with
  | Some s => negb (String.eqb s "")
  | None => false
  end.

Record AppointmentRequest : Type := mkAppointmentRequest
  { clinic_id : string;
    doctor_id : string;
    patient_id : string;
    date : string;
    start_time : string;
    duration_minutes : Z;
    reason : option string }.

(** The filter of the overlap check. *)
Definition overlap_query (doctor : string) (starts_at ends_at : datetime)
    : gmap string clause :=
  {[ "doctor_id" := CEq (VStr doctor);
     "starts_at" := COps {[ "$lt" := VDate ends_at ]};
     "ends_at" := COps {[ "$gt" := VDate starts_at ]} ]}.

(** [POST /appointments] *)
Definition create_appointment (req : AppointmentRequest) : M ObjectId :=
  starts_at ← lift (try_except
    (strptime (date req ++ " " ++ start_time req) "%Y-%m-%d %H:%M")
    is_ValueError (HTTPException 400 "Invalid date or time format"));
  delta ← lift (timedelta_minutes (duration_minutes req));
  ends_at ← lift (add starts_at delta);
  existing ← get_documents (A := Appointment.t)
    (overlap_query (doctor_id req) starts_at ends_at);
  match existing with
  | _ :: _ => raise (HTTPException 409 "overlap")
  | [] =>
      create_document
        (Appointment.new (clinic_id req) (doctor_id req) (patient_id req)
           starts_at ends_at (reason req))
  end.

(** [query[key] = v] under [if v:] *)
Definition set_if (key : string) (v : option string)
    (query : gmap string clause) : gmap string clause :=
  match v with
  | Some s => if truthy v then <[key := CEq (VStr s)]> query else query
  | None => query
  end.

Definition list_appointments_query
    (clinic_id doctor_id patient_id from_date to_date : option string)
    : result (gmap string clause) :=
  let query : gmap string clause := ∅ in
  let query := set_if "clinic_id" clinic_id query in
  let query := set_if "doctor_id" doctor_id query in
  let query := set_if "patient_id" patient_id query in
  if truthy from_date || truthy to_date then
    let date_filter : gmap string value := ∅ in
    date_filter ←
      (if truthy from_date then
         d ← strptime (default "" from_date) "%Y-%m-%d";
         mret (<["$gte" := VDate d]> date_filter)
       else mret date_filter);
    date_filter ←
      (if truthy to_date then
         d ← strptime (default "" to_date) "%Y-%m-%d";
         delta ← timedelta_days 1;
         d' ← add d delta;
         mret (<["$lte" := VDate d']> date_filter)
       else mret date_filter);
    mret (<["starts_at" := COps date_filter]> query)
  else mret query.

(** [GET /appointments] *)
Definition list_appointments
    (clinic_id doctor_id patient_id from_date to_date : option string)
    : M (list (ObjectId * Appointment.t)) :=
  query ← lift (list_appointments_query clinic_id doctor_id patient_id
                  from_date to_date);
  get_documents query.

Record InvoiceCreateRequest : Type := mkInvoiceCreateRequest
  { inv_clinic_id : string;
    inv_appointment_id : string;
    inv_patient_id : string;
    inv_doctor_id : string;
    inv_items : list InvoiceItem.t;
    inv_discount : float;
    inv_tax_rate : float }.

(** [POST /invoices] *)
Definition create_invoice (req : InvoiceCreateRequest) : M ObjectId :=
  let invoice :=
    Invoice.new (inv_clinic_id req) (inv_appointment_id req)
      (inv_patient_id req) (inv_doctor_id req) (inv_items req)
      (inv_discount req) (inv_tax_rate req) in
  create_document invoice.

Definition list_invoices_query (clinic_id status : option string)
    : gmap string clause :=
  let query : gmap string clause := ∅ in
  let query := set_if "clinic_id" clinic_id query in
  let query := set_if "status" status query in
  query.

(** [GET /invoices] *)
Definition list_invoices (clinic_id status : option string)
    : M (list (ObjectId * Invoice.t)) :=
  get_documents (list_invoices_query clinic_id status).

(** [POST /payments] *)
Definition record_payment (payment : Payment.t) : M ObjectId :=
  create_document payment.

Definition list_payments_query (clinic_id invoice_id : option string)
    : gmap string clause :=
  let query : gmap string clause := ∅ in
  let query := set_if "clinic_id" clinic_id query in
  let query := set_if "invoice_id" invoice_id query in
  query.

(** [GET /payments] *)
Definition list_payments (clinic_id invoice_id : option string)
    : M (list (ObjectId * Payment.t)) :=
  get_documents (list_payments_query clinic_id invoice_id).

Record Summary : Type := mkSummary
  { sum_appointments : list (ObjectId * Appointment.t);
    sum_invoices : list (ObjectId * Invoice.t);
    sum_payments : list (ObjectId * Payment.t) }.

(** [GET /analytics/summary] *)
Definition analytics_summary (clinic_id : string) (period : string)
    (date : option string) : M Summary :=
  appts ← get_documents (A := Appointment.t) {[ "clinic_id" := CEq (VStr clinic_id) ]};
  invoices ← get_documents (A := Invoice.t) {[ "clinic_id" := CEq (VStr clinic_id) ]};
  payments ← get_documents (A := Payment.t) {[ "clinic_id" := CEq (VStr clinic_id) ]};
  mret (mkSummary appts invoices payments).

(** ** Notions used in the statements *)

Definition appointment_format : string := "%Y-%m-%d %H:%M".

(** The record [create_appointment] builds for a request. *)
Definition appointment_of (req : AppointmentRequest)
    (starts_at ends_at : datetime) : Appointment.t :=
  Appointment.new (clinic_id req) (doctor_id req) (patient_id req)
    starts_at ends_at (reason req).

(** The appointments the overlap check finds. *)
Definition overlapping (db : option Database) (doctor : string)
    (s e : datetime) : list (ObjectId * Appointment.t) :=
  match db with
  | Some st => List.filter (doc_matches (overlap_query doctor s e)) (appointments st)
  | None => []
  end.

(** The appointments in the store. *)
Definition stored_appointments (db : option Database)
    : list (ObjectId * Appointment.t) :=
  match db with
  | Some st => appointments st
  | None => []
  end.

(** The overlap rule for a request that starts at [s]: creation fails
    with 409 "overlap" exactly when a stored appointment of the same
    doctor starts before the new end and ends after the new start. *)
Definition overlap_rule (req : AppointmentRequest) (db : option Database)
    (s : datetime) : Prop :=
  (create_appointment req db).1 = Raise (HTTPException 409 "overlap") <->
  exists d, In d (stored_appointments db) /\
    Appointment.doctor_id d.2 = doctor_id req /\
    Appointment.starts_at d.2 < s + duration_minutes req * us_per_minute /\
    Appointment.ends_at d.2 > s.

(** Sample data: doctor D is booked 2024-01-15 10:00 to 10:30. *)
Module Sample.
Definition t_10_00 : datetime := 63840909600000000.
Definition t_10_30 : datetime := 63840911400000000.

Definition booked : Appointment.t :=
  Appointment.mk "clinic" "D" "patient" t_10_00 t_10_30 None
    Appointment.scheduled.

Definition empty_store : option Database := Some (mkDatabase [] [] [] 0%N).
Definition one_booking : option Database :=
  Some (mkDatabase [(0%N, booked)] [] [] 1%N).

Definition request (doctor date start_time : string) (minutes : Z)
    : AppointmentRequest :=
  mkAppointmentRequest "clinic" doctor "patient" date start_time minutes None.
End Sample.

Definition set_status (x : Appointment.Status) (a : Appointment.t)
    : Appointment.t :=
  Appointment.mk (Appointment.clinic_id a) (Appointment.doctor_id a)
    (Appointment.patient_id a) (Appointment.starts_at a)
    (Appointment.ends_at a) (Appointment.reason a) x.

(** The store with the status of every appointment rewritten by [f]. *)
Definition restatus (f : ObjectId -> Appointment.t -> Appointment.Status)
    (st : Database) : Database :=
  mkDatabase
    (map (fun d => (d.1, set_status (f d.1 d.2) d.2)) (appointments st))
    (invoices st) (payments st) (next_id st).

(** Two appointments of one doctor whose intervals meet, as the overlap
    check reads them. *)
Definition overlaps (a b : Appointment.t) : Prop :=
  Appointment.doctor_id a = Appointment.doctor_id b /\
  Appointment.starts_at a < Appointment.ends_at b /\
  Appointment.ends_at a > Appointment.starts_at b.

(** No two stored appointments overlap. *)
Definition no_double_booking (l : list (ObjectId * Appointment.t)) : Prop :=
  ForallOrdPairs (fun x y => ~ overlaps x.2 y.2) l.

(** What an optional string parameter asks of a field: equality when it
    is given and non-empty, nothing otherwise. *)
Definition eq_if (v : option string) (field : string) : bool :=
  if truthy v then String.eqb (default "" v) field else true.

(** The bounds [from_date] and [to_date] put on [starts_at]. *)
Definition lower_bound (from_date : option string) : result (option datetime) :=
  if truthy from_date
  then d ← strptime (default "" from_date) "%Y-%m-%d"; mret (Some d)
  else mret None.

Definition upper_bound (to_date : option string) : result (option datetime) :=
  if truthy to_date
  then d ← strptime (default "" to_date) "%Y-%m-%d";
       delta ← timedelta_days 1;
       d' ← add d delta;
       mret (Some d')
  else mret None.

Definition in_bounds (lo hi : option datetime) (t : datetime) : bool :=
  match lo with Some l => l <=? t | None => true end
  && match hi with Some h => t <=? h | None => true end.

(** ** Requests as a transition system *)

Inductive call : Type :=
  | PostAppointment (req : AppointmentRequest)
  | GetAppointments (clinic_id doctor_id patient_id from_date to_date : option string)
  | PostInvoice (req : InvoiceCreateRequest)
  | GetInvoices (clinic_id status : option string)
  | PostPayment (payment : Payment.t)
  | GetPayments (clinic_id invoice_id : option string)
  | GetAnalytics (clinic_id period : string) (date : option string).

(** The store after a call, whatever it answered. *)
Definition step (db : option Database) (c : call) : option Database :=
  match c with
  | PostAppointment req => (create_appointment req db).2
  | GetAppointments c d p f t => (list_appointments c d p f t db).2
  | PostInvoice req => (create_invoice req db).2
  | GetInvoices c s => (list_invoices c s db).2
  | PostPayment p => (record_payment p db).2
  | GetPayments c i => (list_payments c i db).2
  | GetAnalytics c p d => (analytics_summary c p d db).2
  end.

Definition run (db : option Database) (calls : list call) : option Database :=
  fold_left step calls db.

Definition stored_invoices (db : option Database)
    : list (ObjectId * Invoice.t) :=
  match db with
  | Some st => invoices st
  | None => []
  end.

Definition stored_payments (db : option Database)
    : list (ObjectId * Payment.t) :=
  match db with
  | Some st => payments st
  | None => []
  end.

(** The equality part of the appointment filter. *)
Definition appointment_base_query (c d p : option string)
    : gmap string clause :=
  set_if "patient_id" p (set_if "doctor_id" d (set_if "clinic_id" c ∅)).

(** More sample data: midnights of 2024-01-15 and 2024-01-16, and a
    store whose only appointment starts at the second. *)
Module Day.
Definition jan_15 : datetime := 63840873600000000.
Definition jan_16 : datetime := 63840960000000000.

Definition at_midnight : Appointment.t :=
  Appointment.mk "clinic" "D" "patient" jan_16 (jan_16 + 30 * us_per_minute)
    None Appointment.scheduled.

Definition store : option Database :=
  Some (mkDatabase [(0%N, Sample.booked); (1%N, at_midnight)] [] [] 2%N).

Definition invoice : Invoice.t :=
  Invoice.new "clinic" "appointment" "patient" "D" [] 0%float 0%float.

Definition billed : option Database :=
  Some (mkDatabase [] [(0%N, invoice)] [] 1%N).
End Day.

(** An optional parameter with the empty string turned into absence. *)
Definition drop_empty (v : option string) : option string :=
  if truthy v then v else None.

(** A sample session: two appointment requests, an invoice, a listing. *)
Module Session.
Definition invoice_request : InvoiceCreateRequest :=
  mkInvoiceCreateRequest "clinic" "appointment" "patient" "D" [] 0%float
    0%float.

Definition calls : list call :=
  [ PostAppointment (Sample.request "D" "2024-01-15" "10:15" 30);
    PostAppointment (Sample.request "D" "2024-01-15" "10:30" 30);
    PostInvoice invoice_request;
    GetAppointments None None None (Some "bad date") None ].
End Session.

(** ** Zero-padded dates and times, as [%Y-%m-%d] and [%H:%M] print them *)

Definition digit_char (n : Z) : ascii := ascii_of_N (48 + Z.to_N n).

Definition two_digits (n : Z) : string :=
  String (digit_char (n / 10)) (String (digit_char (n mod 10)) "").

Definition four_digits (n : Z) : string :=
  String (digit_char (n / 1000))
    (String (digit_char (n / 100 mod 10)) (two_digits (n mod 100))).

Definition iso_date (year month day : Z) : string :=
  four_digits year ++ "-" ++ two_digits month ++ "-" ++ two_digits day.

Definition iso_time (hour minute : Z) : string :=
  two_digits hour ++ ":" ++ two_digits minute.

(** ** The patterns of the two formats *)

(** A continuation that cannot go on from a digit: the rest of the
    pattern starts with a separator. *)
Definition guarded {A : Type}
    (k : string -> gmap string string -> option A) : Prop :=
  forall c s g, digit c = true -> k (String c s) g = None.

Definition month_re : regex :=
  Group "m" (Or (d2 (Lit "1") (rng "0" "2"))
            (Or (d2 (Lit "0") (rng "1" "9")) (rng "1" "9"))).

Definition year_re : regex :=
  Group "Y" (Cat any_digit (Cat any_digit (Cat any_digit any_digit))).

Definition day_re : regex :=
  Group "d" (Or (d2 (Lit "3") (rng "0" "1"))
            (Or (d2 (rng "1" "2") any_digit)
            (Or (d2 (Lit "0") (rng "1" "9"))
            (Or (rng "1" "9") (d2 (Lit " ") (rng "1" "9")))))).

Definition hour_re : regex :=
  Group "H" (Or (d2 (Lit "2") (rng "0" "3"))
            (Or (d2 (rng "0" "1") any_digit) any_digit)).

Definition minute_re : regex :=
  Group "M" (Or (d2 (rng "0" "5") any_digit) any_digit).

(** The end of the pattern: whatever is left is handed back. *)
Definition found (rest : string) (g : gmap string string)
    : option (string * gmap string string) :=
  Some (rest, g).

Definition datetime_re : regex :=
  Cat year_re (Cat (Lit "-") (Cat month_re (Cat (Lit "-")
    (Cat day_re (Cat (Plus space) (Cat hour_re (Cat (Lit ":") minute_re))))))).

Definition date_re : regex :=
  Cat year_re (Cat (Lit "-") (Cat month_re (Cat (Lit "-") day_re))).

(** A number below 100 as a request may write it: with two digits, or
    with one when it is below ten. *)
Definition one_digit (n : Z) : string := String (digit_char n) "".

Definition written (n : Z) (s : string) : Prop :=
  s = two_digits n \/ (n <= 9 /\ s = one_digit n).

(** * Properties *)

(** ** Filters *)

Lemma matches_true (query : gmap string clause) (doc : gmap string value) :
  matches query doc = true <->
  forall k c, query !! k = Some c -> clause_holds c (doc !! k) = true.
Proof.
  unfold matches. rewrite forallb_forall. split.
  - intros Hall k c Hk.
    apply (Hall (k, c)), list_elem_of_In, elem_of_map_to_list, Hk.
  - intros Hall [k c] Hin.
    apply list_elem_of_In, elem_of_map_to_list in Hin. by apply Hall.
Qed.

Lemma ops_holds_singleton (op : string) (bound v : value) :
  clause_holds (COps {[ op := bound ]}) (Some v) = op_holds op bound v.
Proof. simpl. rewrite map_to_list_singleton. simpl. apply andb_true_r. Qed.

Lemma matches_empty (doc : gmap string value) : matches ∅ doc = true.
Proof. apply matches_true. intros k c Hk. by rewrite lookup_empty in Hk. Qed.

Lemma appointment_dump_doctor_id (a : Appointment.t) :
  model_dump a !! "doctor_id" = Some (VStr (Appointment.doctor_id a)).
Proof. reflexivity. Qed.

Lemma appointment_dump_starts_at (a : Appointment.t) :
  model_dump a !! "starts_at" = Some (VDate (Appointment.starts_at a)).
Proof. reflexivity. Qed.

Lemma appointment_dump_ends_at (a : Appointment.t) :
  model_dump a !! "ends_at" = Some (VDate (Appointment.ends_at a)).
Proof. reflexivity. Qed.

Lemma appointment_dump_clinic_id (a : Appointment.t) :
  model_dump a !! "clinic_id" = Some (VStr (Appointment.clinic_id a)).
Proof. reflexivity. Qed.

Lemma overlap_query_matches (doctor : string) (s e : datetime)
    (a : Appointment.t) (id : ObjectId) :
  doc_matches (overlap_query doctor s e) (id, a) = true <->
  Appointment.doctor_id a = doctor /\
  Appointment.starts_at a < e /\ Appointment.ends_at a > s.
Proof.
  unfold doc_matches, overlap_query. rewrite matches_true.
  change ((id, a).2) with a. split.
  - intros Hall.
    pose proof (Hall "doctor_id" _ eq_refl) as H1.
    pose proof (Hall "starts_at" _ eq_refl) as H2.
    pose proof (Hall "ends_at" _ eq_refl) as H3.
    rewrite appointment_dump_doctor_id in H1.
    rewrite appointment_dump_starts_at, ops_holds_singleton in H2.
    rewrite appointment_dump_ends_at, ops_holds_singleton in H3.
    simpl in H1, H2, H3.
    apply String.eqb_eq in H1. split; [done | lia].
  - intros (Hd & Hs & He) k c Hk.
    apply lookup_insert_Some in Hk as [[<- <-] | [_ Hk]].
    { rewrite appointment_dump_doctor_id. simpl.
      by apply String.eqb_eq. }
    apply lookup_insert_Some in Hk as [[<- <-] | [_ Hk]].
    { rewrite appointment_dump_starts_at, ops_holds_singleton. simpl. lia. }
    apply lookup_singleton_Some in Hk as [<- <-].
    rewrite appointment_dump_ends_at, ops_holds_singleton. simpl. lia.
Qed.

(** ** Calendar arithmetic *)

Lemma days_before_next_year (y : Z) :
  _days_before_year (y + 1)
  = _days_before_year y + 365 + (if _is_leap y then 1 else 0).
Proof.
  unfold _days_before_year, _is_leap.
  replace (y + 1 - 1) with y by lia.
  destruct (y mod 4 =? 0) eqn:H4; destruct (y mod 100 =? 0) eqn:H100;
    destruct (y mod 400 =? 0) eqn:H400; simpl;
    Z.div_mod_to_equations; lia.
Qed.

Lemma day_of_year_bounds (y m d : Z) :
  1 <= m <= 12 -> 1 <= d <= _days_in_month y m ->
  1 <= _days_before_month y m + d <= 365 + (if _is_leap y then 1 else 0).
Proof.
  intros Hm Hd. unfold _days_before_month, _days_in_month in *.
  assert (m = 1 \/ m = 2 \/ m = 3 \/ m = 4 \/ m = 5 \/ m = 6 \/ m = 7
          \/ m = 8 \/ m = 9 \/ m = 10 \/ m = 11 \/ m = 12) as Hcases by lia.
  destruct (_is_leap y);
    repeat (destruct Hcases as [-> | Hcases]); try subst m;
    simpl in *; lia.
Qed.

Lemma ymd2ord_bounds (y m d : Z) :
  _check_date_fields y m d = true ->
  1 <= _ymd2ord y m d <= _days_before_year (MAXYEAR + 1).
Proof.
  unfold _check_date_fields, MINYEAR. intros H.
  repeat (apply andb_true_iff in H as [H ?]).
  pose proof (day_of_year_bounds y m d ltac:(lia) ltac:(lia)) as Hdoy.
  pose proof (days_before_next_year y) as Hnext.
  unfold _ymd2ord, MAXYEAR in *.
  assert (0 <= _days_before_year y) as Hlo
    by (unfold _days_before_year; Z.div_mod_to_equations; lia).
  assert (_days_before_year (y + 1) <= _days_before_year (9999 + 1)) as Hhi
    by (unfold _days_before_year; Z.div_mod_to_equations; lia).
  lia.
Qed.

Lemma mk_datetime_range (y m d h mi : Z) (t : datetime) :
  mk_datetime y m d h mi = Ok t -> datetime_min <= t <= datetime_max.
Proof.
  unfold mk_datetime.
  destruct (_check_date_fields y m d) eqn:Hd; [| discriminate].
  destruct (_check_time_fields h mi) eqn:Ht; [| discriminate].
  simpl. intros [= <-].
  apply ymd2ord_bounds in Hd.
  unfold _check_time_fields in Ht.
  repeat (apply andb_true_iff in Ht as [Ht ?]).
  change (_days_before_year (MAXYEAR + 1)) with 3652059 in Hd.
  unfold datetime_min, datetime_max.
  change (_ymd2ord MAXYEAR 12 31) with 3652059.
  unfold us_per_day, us_per_minute. lia.
Qed.

(** ** Parsing *)

Lemma mk_datetime_raises (y m d h mi : Z) (e : exn) :
  mk_datetime y m d h mi = Raise e -> e = ValueError.
Proof. unfold mk_datetime. case (_ && _); congruence. Qed.

Lemma py_int_raises (s : string) (e : exn) :
  py_int s = Raise e -> e = ValueError.
Proof.
  unfold py_int. destruct (lstrip s); [congruence |].
  destruct (digits_value _ _); congruence.
Qed.

Lemma group_int_raises (g : gmap string string) (name : string) (dflt : Z)
    (e : exn) :
  group_int g name dflt = Raise e -> e = ValueError.
Proof.
  unfold group_int. destruct (g !! name); [apply py_int_raises | congruence].
Qed.

(** What [strptime] yields is read off the groups of a full match. *)
Lemma strptime_cases (data_string format : string) :
  strptime data_string format = Raise ValueError \/
  exists y m d h mi, strptime data_string format = mk_datetime y m d h mi.
Proof.
  unfold strptime.
  destruct (pattern format false) as [[re |] |]; [| | by left].
  - destruct (re_match re data_string) as [[rest g] |]; [| by left].
    destruct (negb (rest =? "")%string); [by left |].
    destruct (group_int g "Y" 1900) as [y | e] eqn:HY;
      [| apply group_int_raises in HY as ->; by left].
    destruct (group_int g "m" 1) as [m | e] eqn:Hm;
      [| apply group_int_raises in Hm as ->; by left].
    destruct (group_int g "d" 1) as [d | e] eqn:Hd;
      [| apply group_int_raises in Hd as ->; by left].
    destruct (group_int g "H" 0) as [h | e] eqn:HH;
      [| apply group_int_raises in HH as ->; by left].
    destruct (group_int g "M" 0) as [mi | e] eqn:HM;
      [| apply group_int_raises in HM as ->; by left].
    right. by exists y, m, d, h, mi.
  - destruct (data_string =? "")%string; [| by left].
    right. by exists 1900, 1, 1, 0, 0.
Qed.

(** [strptime] either returns a datetime or raises [ValueError]. *)
Lemma strptime_raises (data_string format : string) (e : exn) :
  strptime data_string format = Raise e -> e = ValueError.
Proof.
  destruct (strptime_cases data_string format) as [-> | (y & m & d & h & mi & ->)].
  - congruence.
  - apply mk_datetime_raises.
Qed.

Lemma strptime_range (data_string format : string) (t : datetime) :
  strptime data_string format = Ok t -> datetime_min <= t <= datetime_max.
Proof.
  destruct (strptime_cases data_string format) as [-> | (y & m & d & h & mi & ->)].
  - discriminate.
  - apply mk_datetime_range.
Qed.

(** ** The end instant *)

(** [starts_at + timedelta(minutes=n)] succeeds exactly when the sum is a
    representable datetime, and is then that sum. *)
Lemma datetime_max_val : datetime_max = 315537897599999999.
Proof. vm_compute. reflexivity. Qed.

Lemma end_instant_ok (s : datetime) (n : Z) :
  datetime_min <= s <= datetime_max ->
  datetime_min <= s + n * us_per_minute <= datetime_max ->
  (timedelta_minutes n ≫= add s) = Ok (s + n * us_per_minute).
Proof.
  intros Hs He. pose proof datetime_max_val as Hmax.
  assert (timedelta_minutes n = Ok (n * us_per_minute)) as ->.
  { unfold timedelta_minutes, mk_timedelta.
    unfold datetime_min, us_per_day, us_per_minute in *.
    match goal with |- (if ?c then _ else _) = _ =>
      assert (c = true) as -> by (apply andb_true_iff; lia) end.
    reflexivity. }
  cbn [mbind result_bind]. unfold add.
  match goal with |- (if ?c then _ else _) = _ =>
    assert (c = true) as -> by (apply andb_true_iff; lia) end.
  reflexivity.
Qed.

Lemma end_instant_overflow (s : datetime) (n : Z) :
  ~ (datetime_min <= s + n * us_per_minute <= datetime_max) ->
  (timedelta_minutes n ≫= add s) = Raise OverflowError.
Proof.
  intros He. unfold timedelta_minutes, mk_timedelta.
  match goal with |- ((if ?c then _ else _) ≫= _) = _ => destruct c end;
    [| done].
  cbn [mbind result_bind]. unfold add.
  match goal with |- (if ?c then _ else _) = _ => destruct c eqn:Hr end;
    [| done].
  apply andb_true_iff in Hr. lia.
Qed.

(** The end instant is computed exactly when it is representable. *)
Lemma end_instant_spec (s : datetime) (n : Z) (e : datetime) :
  datetime_min <= s <= datetime_max ->
  (timedelta_minutes n ≫= add s) = Ok e <->
  e = s + n * us_per_minute /\ datetime_min <= e <= datetime_max.
Proof.
  intros Hs.
  destruct (decide (datetime_min <= s + n * us_per_minute <= datetime_max))
    as [Hin | Hout].
  - rewrite end_instant_ok by done. split.
    + intros [= <-]. done.
    + intros [-> _]. done.
  - rewrite end_instant_overflow by done. split.
    + discriminate.
    + intros [-> ?]. contradiction.
Qed.

(** ** Appointment creation *)

Lemma create_appointment_bad_format (req : AppointmentRequest)
    (db : option Database) :
  strptime (date req ++ " " ++ start_time req) appointment_format
    = Raise ValueError ->
  create_appointment req db
  = (Raise (HTTPException 400 "Invalid date or time format"), db).
Proof.
  unfold appointment_format. intros Hp. unfold create_appointment.
  unfold mbind at 1. unfold M_bind, lift. by rewrite Hp.
Qed.

Lemma create_appointment_out_of_range (req : AppointmentRequest)
    (db : option Database) (s : datetime) (e : exn) :
  strptime (date req ++ " " ++ start_time req) appointment_format = Ok s ->
  (timedelta_minutes (duration_minutes req) ≫= add s) = Raise e ->
  create_appointment req db = (Raise e, db).
Proof.
  unfold appointment_format. intros Hp He. unfold create_appointment.
  unfold mbind at 1. unfold M_bind at 1. unfold lift at 1. rewrite Hp.
  cbn [try_except].
  unfold mbind at 1. unfold M_bind at 1. unfold lift at 1.
  destruct (timedelta_minutes (duration_minutes req)) as [delta | e'].
  - cbn [mbind result_bind] in He.
    unfold mbind at 1. unfold M_bind at 1. unfold lift at 1. by rewrite He.
  - cbn [mbind result_bind] in He. congruence.
Qed.

Lemma create_appointment_checked (req : AppointmentRequest)
    (db : option Database) (s e : datetime) :
  strptime (date req ++ " " ++ start_time req) appointment_format = Ok s ->
  (timedelta_minutes (duration_minutes req) ≫= add s) = Ok e ->
  create_appointment req db =
  match overlapping db (doctor_id req) s e with
  | _ :: _ => (Raise (HTTPException 409 "overlap"), db)
  | [] => create_document (appointment_of req s e) db
  end.
Proof.
  unfold appointment_format. intros Hp He. unfold create_appointment.
  unfold mbind at 1. unfold M_bind at 1. unfold lift at 1. rewrite Hp.
  cbn [try_except].
  unfold mbind at 1. unfold M_bind at 1. unfold lift at 1.
  destruct (timedelta_minutes (duration_minutes req)) as [delta | e'];
    cbn [mbind result_bind] in He; [| discriminate].
  unfold mbind at 1. unfold M_bind at 1. unfold lift at 1. rewrite He.
  unfold mbind at 1. unfold M_bind at 1. unfold get_documents, overlapping.
  destruct db as [st |]; [| reflexivity].
  change (docs st) with (appointments st).
  by destruct (List.filter _ _).
Qed.

Lemma overlapping_In (db : option Database) (doctor : string)
    (s e : datetime) (d : ObjectId * Appointment.t) :
  In d (overlapping db doctor s e) <->
  In d (stored_appointments db) /\
  Appointment.doctor_id d.2 = doctor /\
  Appointment.starts_at d.2 < e /\ Appointment.ends_at d.2 > s.
Proof.
  destruct db as [st |]; simpl; [| tauto].
  rewrite filter_In. destruct d as [id a].
  by rewrite overlap_query_matches.
Qed.

Lemma create_document_not_conflict {A : Type} `{Collection A} (data : A)
    (db : option Database) (c : Z) (msg : string) :
  (create_document data db).1 <> Raise (HTTPException c msg).
Proof. by destruct db. Qed.

(** What a successful creation did. *)
Lemma create_appointment_ok_inv (req : AppointmentRequest)
    (db db' : option Database) (id : ObjectId) :
  create_appointment req db = (Ok id, db') ->
  exists s e st,
    strptime (date req ++ " " ++ start_time req) appointment_format = Ok s /\
    e = s + duration_minutes req * us_per_minute /\
    datetime_min <= e <= datetime_max /\
    overlapping db (doctor_id req) s e = [] /\
    db = Some st /\ id = next_id st /\
    db' = Some (insert_one (id, appointment_of req s e) st).
Proof.
  intros Hrun.
  destruct (strptime (date req ++ " " ++ start_time req) appointment_format)
    as [s | err] eqn:Hp.
  2: { pose proof (strptime_raises _ _ _ Hp) as ->.
       rewrite (create_appointment_bad_format _ _ Hp) in Hrun. discriminate. }
  destruct (timedelta_minutes (duration_minutes req) ≫= add s)
    as [e | err] eqn:He.
  2: { rewrite (create_appointment_out_of_range _ _ _ _ Hp He) in Hrun.
       discriminate. }
  rewrite (create_appointment_checked _ _ _ _ Hp He) in Hrun.
  apply end_instant_spec in He as [-> Hrange];
    [| by eapply strptime_range].
  destruct (overlapping db (doctor_id req) s _) eqn:Hov; [| discriminate].
  destruct db as [st |]; [| discriminate].
  simpl in Hrun. injection Hrun as <- <-.
  exists s, (s + duration_minutes req * us_per_minute), st.
  by rewrite Hov.
Qed.

(** A failed creation leaves the store as it was. *)
Lemma create_appointment_raise_inv (req : AppointmentRequest)
    (db db' : option Database) (err : exn) :
  create_appointment req db = (Raise err, db') -> db' = db.
Proof.
  intros Hrun.
  destruct (strptime (date req ++ " " ++ start_time req) appointment_format)
    as [s | err'] eqn:Hp.
  2: { pose proof (strptime_raises _ _ _ Hp) as ->.
       rewrite (create_appointment_bad_format _ _ Hp) in Hrun. congruence. }
  destruct (timedelta_minutes (duration_minutes req) ≫= add s)
    as [e | err'] eqn:He.
  2: { rewrite (create_appointment_out_of_range _ _ _ _ Hp He) in Hrun.
       congruence. }
  rewrite (create_appointment_checked _ _ _ _ Hp He) in Hrun.
  destruct (overlapping db (doctor_id req) s e); [| congruence].
  destruct db; simpl in Hrun; congruence.
Qed.

(** C1, as amended.  For every request whose date and start_time parse and
    whose end instant, start plus duration_minutes, is still a datetime
    (years 1 to 9999), creation fails with HTTP 409 "overlap" if and only
    if some stored appointment of the same doctor has
    [starts_at < new end] and [ends_at > new start]; an appointment that
    ends where the new one starts, starts where the new one ends, or
    belongs to another doctor is not matched by the check. *)
Theorem create_appointment_conflict_iff_overlap
    (req : AppointmentRequest) (db : option Database) (s : datetime)
    (Hparse : strptime (date req ++ " " ++ start_time req) appointment_format
              = Ok s)
    (Hend : datetime_min <= s + duration_minutes req * us_per_minute
            <= datetime_max) :
  overlap_rule req db s /\
  (forall d,
     Appointment.ends_at d.2 = s \/
     Appointment.starts_at d.2 = s + duration_minutes req * us_per_minute \/
     Appointment.doctor_id d.2 <> doctor_id req ->
     ~ In d (overlapping db (doctor_id req) s
               (s + duration_minutes req * us_per_minute))).
Proof.
  pose proof (end_instant_ok s (duration_minutes req)
                (strptime_range _ _ _ Hparse) Hend) as He.
  set (e := s + duration_minutes req * us_per_minute) in *. split.
  - unfold overlap_rule. fold e.
    rewrite (create_appointment_checked _ _ _ _ Hparse He).
    destruct (overlapping db (doctor_id req) s e) as [| d l] eqn:Hov.
    + split.
      * intros Hc. by apply create_document_not_conflict in Hc.
      * intros [d Hd]. apply overlapping_In in Hd. rewrite Hov in Hd.
        destruct Hd.
    + split; [| done]. intros _. exists d.
      apply overlapping_In. rewrite Hov. by left.
  - intros d Hd Hin. apply overlapping_In in Hin.
    destruct Hin as (_ & Hdoc & Hs & He').
    destruct Hd as [Hd | [Hd | Hd]]; [lia | lia | done].
Qed.

(** The rule at work: a request for 10:15 to 10:45 against the 10:00 to
    10:30 booking of the same doctor. *)
Lemma create_appointment_conflict_iff_overlap_witness :
  strptime "2024-01-15 10:15" appointment_format = Ok 63840910500000000 /\
  datetime_min <= 63840910500000000 + 30 * us_per_minute <= datetime_max /\
  overlap_rule (Sample.request "D" "2024-01-15" "10:15" 30)
    Sample.one_booking 63840910500000000.
Proof.
  assert (strptime "2024-01-15 10:15" appointment_format
          = Ok 63840910500000000) as Hp by (vm_compute; reflexivity).
  assert (datetime_min <= 63840910500000000 + 30 * us_per_minute
          <= datetime_max) as He by (vm_compute; split; discriminate).
  split; [exact Hp |]. split; [exact He |].
  exact (proj1 (create_appointment_conflict_iff_overlap
    (Sample.request "D" "2024-01-15" "10:15" 30) Sample.one_booking
    63840910500000000 Hp He)).
Defined.

(** C1 as stated fails: a request that parses, with a duration of 10^10
    minutes, meets the 10:00 to 10:30 booking of the same doctor, yet the
    handler raises [OverflowError] (a 500) when it adds the duration, not
    the 409. *)
Lemma create_appointment_conflict_overflow_counterexample :
  strptime "2024-01-15 10:00" appointment_format = Ok Sample.t_10_00 /\
  (create_appointment (Sample.request "D" "2024-01-15" "10:00" 10000000000)
     Sample.one_booking).1 = Raise OverflowError /\
  ~ overlap_rule (Sample.request "D" "2024-01-15" "10:00" 10000000000)
      Sample.one_booking Sample.t_10_00.
Proof.
  assert ((create_appointment
             (Sample.request "D" "2024-01-15" "10:00" 10000000000)
             Sample.one_booking).1 = Raise OverflowError) as Hrun
    by (vm_compute; reflexivity).
  split; [vm_compute; reflexivity |]. split; [exact Hrun |].
  unfold overlap_rule. rewrite Hrun. intros [_ Hconf].
  enough (@Raise ObjectId OverflowError = Raise (HTTPException 409 "overlap"))
    by discriminate.
  apply Hconf. exists (0%N, Sample.booked). split; [by left |].
  split; [reflexivity |]. vm_compute. split; reflexivity.
Qed.

(** The three cases of the overlap scenario: 10:15 to 10:45 for the same
    doctor conflicts; 10:30 to 11:00 for the same doctor and 10:00 to
    10:30 for another doctor are stored. *)
Example overlap_scenario :
  (create_appointment (Sample.request "D" "2024-01-15" "10:15" 30)
     Sample.one_booking).1 = Raise (HTTPException 409 "overlap") /\
  (create_appointment (Sample.request "D" "2024-01-15" "10:30" 30)
     Sample.one_booking).1 = Ok 1%N /\
  (create_appointment (Sample.request "D" "2024-01-15" "09:30" 30)
     Sample.one_booking).1 = Ok 1%N /\
  (create_appointment (Sample.request "E" "2024-01-15" "10:00" 30)
     Sample.one_booking).1 = Ok 1%N.
Proof. vm_compute. repeat split. Qed.


(** C4, as amended.  Every appointment record that creation persists has
    [ends_at = starts_at + duration_minutes], so [ends_at > starts_at]
    holds exactly when the request's duration_minutes is positive. *)
Theorem persisted_appointment_interval (req : AppointmentRequest)
    (db db' : option Database) (id : ObjectId)
    (Hrun : create_appointment req db = (Ok id, db')) :
  exists a,
    stored_appointments db' = (stored_appointments db ++ [(id, a)])%list /\
    Appointment.ends_at a
    = Appointment.starts_at a + duration_minutes req * us_per_minute /\
    (Appointment.ends_at a > Appointment.starts_at a
     <-> duration_minutes req > 0).
Proof.
  apply create_appointment_ok_inv in Hrun
    as (s & e & st & _ & -> & _ & _ & -> & -> & ->).
  eexists. split; [reflexivity |]. simpl.
  unfold us_per_minute. split; lia.
Qed.

Lemma persisted_appointment_interval_witness :
  create_appointment (Sample.request "D" "2024-01-15" "10:30" 30)
    Sample.one_booking
  = (Ok 1%N,
     Some (mkDatabase
             [(0%N, Sample.booked);
              (1%N, Appointment.mk "clinic" "D" "patient"
                      Sample.t_10_30 63840913200000000 None
                      Appointment.scheduled)] [] [] 2%N)) /\
  exists a,
    [(0%N, Sample.booked);
     (1%N, Appointment.mk "clinic" "D" "patient"
             Sample.t_10_30 63840913200000000 None Appointment.scheduled)]
    = ([(0%N, Sample.booked)] ++ [(1%N, a)])%list /\
    Appointment.ends_at a = Appointment.starts_at a + 30 * us_per_minute /\
    (Appointment.ends_at a > Appointment.starts_at a <-> 30 > 0).
Proof.
  assert (create_appointment (Sample.request "D" "2024-01-15" "10:30" 30)
            Sample.one_booking
          = (Ok 1%N,
             Some (mkDatabase
                     [(0%N, Sample.booked);
                      (1%N, Appointment.mk "clinic" "D" "patient"
                              Sample.t_10_30 63840913200000000 None
                              Appointment.scheduled)] [] [] 2%N))) as Hrun
    by (vm_compute; reflexivity).
  split; [exact Hrun |].
  exact (persisted_appointment_interval _ _ _ _ Hrun).
Defined.

(** C4 as stated fails: a request with [duration_minutes = 0] on an empty
    store is persisted with [ends_at = starts_at]. *)
Lemma persisted_appointment_zero_duration_counterexample :
  exists db' a,
    create_appointment (Sample.request "D" "2024-01-15" "10:00" 0)
      Sample.empty_store = (Ok 0%N, db') /\
    stored_appointments db' = [(0%N, a)] /\
    ~ Appointment.ends_at a > Appointment.starts_at a.
Proof.
  eexists _, _. split; [vm_compute; reflexivity |].
  split; [reflexivity |]. simpl. lia.
Qed.

(** A negative duration is persisted as well, with the interval
    inverted. *)
Example persisted_appointment_negative_duration :
  exists db' a,
    create_appointment (Sample.request "D" "2024-01-15" "10:00" (-30))
      Sample.empty_store = (Ok 0%N, db') /\
    stored_appointments db' = [(0%N, a)] /\
    Appointment.ends_at a < Appointment.starts_at a.
Proof.
  eexists _, _. split; [vm_compute; reflexivity |].
  split; [reflexivity |]. simpl. lia.
Qed.

(** C7.  A request that parses and whose overlap check finds nothing is
    persisted, on a reachable store, as a record with status "scheduled",
    [ends_at] the parsed start plus duration_minutes, and the clinic,
    doctor, patient and reason of the request, under the identifier the
    store assigns, which the handler returns; when the check finds an
    appointment the handler raises 409 and the store is unchanged. *)
Theorem create_appointment_persists (req : AppointmentRequest)
    (st : Database) (s e : datetime)
    (Hparse : strptime (date req ++ " " ++ start_time req) appointment_format
              = Ok s)
    (Hend : (timedelta_minutes (duration_minutes req) ≫= add s) = Ok e) :
  e = s + duration_minutes req * us_per_minute /\
  (overlapping (Some st) (doctor_id req) s e = [] ->
   create_appointment req (Some st)
   = (Ok (next_id st),
      Some (mkDatabase
              (appointments st ++
                 [(next_id st,
                   Appointment.mk (clinic_id req) (doctor_id req)
                     (patient_id req) s e (reason req)
                     Appointment.scheduled)])%list
              (invoices st) (payments st) (N.succ (next_id st))))) /\
  (overlapping (Some st) (doctor_id req) s e <> [] ->
   create_appointment req (Some st)
   = (Raise (HTTPException 409 "overlap"), Some st)).
Proof.
  rewrite (create_appointment_checked _ _ _ _ Hparse Hend).
  apply end_instant_spec in Hend as [-> _]; [| by eapply strptime_range].
  split; [reflexivity |]. split.
  - intros ->. reflexivity.
  - intros Hne. by destruct (overlapping _ _ _ _).
Qed.

Lemma create_appointment_persists_witness :
  strptime "2024-01-15 10:30" appointment_format = Ok Sample.t_10_30 /\
  (timedelta_minutes 30 ≫= add Sample.t_10_30) = Ok 63840913200000000 /\
  create_appointment (Sample.request "D" "2024-01-15" "10:30" 30)
    Sample.one_booking
  = (Ok 1%N,
     Some (mkDatabase
             [(0%N, Sample.booked);
              (1%N, Appointment.mk "clinic" "D" "patient"
                      Sample.t_10_30 63840913200000000 None
                      Appointment.scheduled)] [] [] 2%N)).
Proof.
  assert (strptime "2024-01-15 10:30" appointment_format = Ok Sample.t_10_30)
    as Hp by (vm_compute; reflexivity).
  assert ((timedelta_minutes 30 ≫= add Sample.t_10_30)
          = Ok 63840913200000000) as He by (vm_compute; reflexivity).
  split; [exact Hp |]. split; [exact He |].
  refine (proj1 (proj2 (create_appointment_persists
    (Sample.request "D" "2024-01-15" "10:30" 30)
    (mkDatabase [(0%N, Sample.booked)] [] [] 1%N)
    Sample.t_10_30 63840913200000000 Hp He)) _).
  vm_compute. reflexivity.
Defined.

(** On an unreachable store the insert fails and nothing is stored. *)
Lemma create_appointment_store_unavailable (req : AppointmentRequest)
    (s e : datetime) :
  strptime (date req ++ " " ++ start_time req) appointment_format = Ok s ->
  (timedelta_minutes (duration_minutes req) ≫= add s) = Ok e ->
  create_appointment req None = (Raise StoreUnavailable, None).
Proof.
  intros Hp He. by rewrite (create_appointment_checked _ _ _ _ Hp He).
Qed.

(** ** Cancelled appointments *)

Lemma overlap_query_ignores_status (doctor : string) (s e : datetime)
    (x : Appointment.Status) (a : Appointment.t) (id : ObjectId) :
  doc_matches (overlap_query doctor s e) (id, set_status x a)
  = doc_matches (overlap_query doctor s e) (id, a).
Proof.
  apply eq_true_iff_eq. by rewrite !overlap_query_matches.
Qed.

Lemma overlapping_restatus (f : ObjectId -> Appointment.t -> Appointment.Status)
    (st : Database) (doctor : string) (s e : datetime) :
  overlapping (Some (restatus f st)) doctor s e
  = map (fun d => (d.1, set_status (f d.1 d.2) d.2))
        (overlapping (Some st) doctor s e).
Proof.
  unfold overlapping, restatus. simpl.
  induction (appointments st) as [| [id a] l IH]; [reflexivity |].
  simpl. rewrite overlap_query_ignores_status, IH.
  by destruct (doc_matches _ (id, a)).
Qed.

(** The outcome of a creation request does not depend on the statuses of
    the stored appointments. *)
Lemma create_appointment_status_blind
    (f : ObjectId -> Appointment.t -> Appointment.Status)
    (req : AppointmentRequest) (st : Database) :
  (create_appointment req (Some (restatus f st))).1
  = (create_appointment req (Some st)).1.
Proof.
  destruct (strptime (date req ++ " " ++ start_time req) appointment_format)
    as [s | err] eqn:Hp.
  2: { pose proof (strptime_raises _ _ _ Hp) as ->.
       by rewrite !(create_appointment_bad_format _ _ Hp). }
  destruct (timedelta_minutes (duration_minutes req) ≫= add s)
    as [e | err] eqn:He.
  2: { by rewrite !(create_appointment_out_of_range _ _ _ _ Hp He). }
  rewrite !(create_appointment_checked _ _ _ _ Hp He), overlapping_restatus.
  by destruct (overlapping (Some st) _ _ _).
Qed.

(** C6.  A stored appointment of the same doctor whose interval overlaps
    the requested one makes creation fail with 409 "overlap" although its
    status is "cancelled": the overlap filter matches it under every
    status, "scheduled" included. *)
Theorem cancelled_appointment_blocks (req : AppointmentRequest)
    (st : Database) (s e : datetime) (id : ObjectId) (a : Appointment.t)
    (Hparse : strptime (date req ++ " " ++ start_time req) appointment_format
              = Ok s)
    (Hend : (timedelta_minutes (duration_minutes req) ≫= add s) = Ok e)
    (Hstored : In (id, a) (appointments st))
    (Hdoctor : Appointment.doctor_id a = doctor_id req)
    (Hcancelled : Appointment.status a = Appointment.cancelled)
    (Hoverlap : Appointment.starts_at a < e /\ Appointment.ends_at a > s) :
  create_appointment req (Some st)
  = (Raise (HTTPException 409 "overlap"), Some st) /\
  (forall x,
     doc_matches (overlap_query (doctor_id req) s e) (id, set_status x a)
     = true).
Proof.
  assert (doc_matches (overlap_query (doctor_id req) s e) (id, a) = true)
    as Hm by (apply overlap_query_matches; tauto).
  split.
  - rewrite (create_appointment_checked _ _ _ _ Hparse Hend).
    assert (In (id, a) (overlapping (Some st) (doctor_id req) s e)) as Hin
      by (apply overlapping_In; split; [exact Hstored | tauto]).
    clear Hm.
    destruct (overlapping (Some st) (doctor_id req) s e) as [| d l];
      [destruct Hin | reflexivity].
  - intros x. rewrite overlap_query_ignores_status. exact Hm.
Qed.

Lemma cancelled_appointment_blocks_witness :
  let a := set_status Appointment.cancelled Sample.booked in
  let st := mkDatabase [(0%N, a)] [] [] 1%N in
  create_appointment (Sample.request "D" "2024-01-15" "10:15" 30) (Some st)
  = (Raise (HTTPException 409 "overlap"), Some st).
Proof.
  intros a st.
  assert (strptime "2024-01-15 10:15" appointment_format
          = Ok 63840910500000000) as Hp by (vm_compute; reflexivity).
  assert ((timedelta_minutes 30 ≫= add 63840910500000000)
          = Ok 63840912300000000) as He by (vm_compute; reflexivity).
  refine (proj1 (cancelled_appointment_blocks
    (Sample.request "D" "2024-01-15" "10:15" 30) st
    63840910500000000 63840912300000000 0%N a Hp He _ _ _ _)).
  - simpl. left. reflexivity.
  - reflexivity.
  - reflexivity.
  - vm_compute. split; reflexivity.
Defined.


(** * Further properties *)

(** ** Filters, continued *)

Lemma ops_hold_true (ops : gmap string value) (v : value) :
  clause_holds (COps ops) (Some v) = true <->
  forall op b, ops !! op = Some b -> op_holds op b v = true.
Proof.
  simpl. rewrite forallb_forall. split.
  - intros Hall op b Hop.
    apply (Hall (op, b)), list_elem_of_In, elem_of_map_to_list, Hop.
  - intros Hall [op b] Hin.
    apply list_elem_of_In, elem_of_map_to_list in Hin. by apply Hall.
Qed.

Lemma matches_insert (k : string) (c : clause) (query : gmap string clause)
    (doc : gmap string value) :
  query !! k = None ->
  matches (<[k := c]> query) doc
  = clause_holds c (doc !! k) && matches query doc.
Proof.
  intros Hk. apply eq_true_iff_eq.
  rewrite andb_true_iff, !matches_true. split.
  - intros Hall. split.
    + apply (Hall k c), lookup_insert_eq.
    + intros k' c' Hk'. apply Hall.
      rewrite lookup_insert_ne; [done |]. intros <-. congruence.
  - intros [Hc Hall] k' c' Hk'.
    apply lookup_insert_Some in Hk' as [[<- <-] | [_ Hk']]; [done |].
    by apply Hall.
Qed.

Lemma set_if_lookup_ne (k k' : string) (v : option string)
    (query : gmap string clause) :
  k <> k' -> set_if k v query !! k' = query !! k'.
Proof.
  intros Hne. unfold set_if.
  destruct v as [s |]; [| done].
  destruct (truthy (Some s)); [| done]. by rewrite lookup_insert_ne.
Qed.

Lemma matches_set_if (k : string) (v : option string)
    (query : gmap string clause) (doc : gmap string value) (field : string) :
  query !! k = None -> doc !! k = Some (VStr field) ->
  matches (set_if k v query) doc = eq_if v field && matches query doc.
Proof.
  intros Hk Hdoc. unfold set_if, eq_if.
  destruct v as [s |]; [| done].
  destruct (truthy (Some s)); [| done].
  by rewrite matches_insert, Hdoc.
Qed.


(** ** Listing invoices and payments *)

Lemma invoice_query_matches (c s : option string) (i : Invoice.t)
    (id : ObjectId) :
  doc_matches (list_invoices_query c s) (id, i)
  = eq_if c (Invoice.clinic_id i)
    && eq_if s (Invoice.status_str (Invoice.status i)).
Proof.
  unfold doc_matches, list_invoices_query.
  rewrite (matches_set_if "status" s _ _ (Invoice.status_str (Invoice.status i)));
    [| by rewrite set_if_lookup_ne | reflexivity].
  rewrite (matches_set_if "clinic_id" c _ _ (Invoice.clinic_id i));
    [| apply lookup_empty | reflexivity].
  rewrite matches_empty, andb_true_r. apply andb_comm.
Qed.

Lemma payment_query_matches (c i : option string) (p : Payment.t)
    (id : ObjectId) :
  doc_matches (list_payments_query c i) (id, p)
  = eq_if c (Payment.clinic_id p) && eq_if i (Payment.invoice_id p).
Proof.
  unfold doc_matches, list_payments_query.
  rewrite (matches_set_if "invoice_id" i _ _ (Payment.invoice_id p));
    [| by rewrite set_if_lookup_ne | reflexivity].
  rewrite (matches_set_if "clinic_id" c _ _ (Payment.clinic_id p));
    [| apply lookup_empty | reflexivity].
  rewrite matches_empty, andb_true_r. apply andb_comm.
Qed.

Lemma get_documents_run {A : Type} `{Collection A}
    (query : gmap string clause) (db : option Database) :
  get_documents query db
  = (Ok (List.filter (doc_matches query)
           (match db with Some st => docs st | None => [] end)), db).
Proof. by destruct db. Qed.

(** [list_invoices] answers with exactly the stored invoices, in
    store order, whose clinic_id equals the [clinic_id] parameter and
    whose status equals the [status] parameter, each test applying only
    when its parameter is given and non-empty; the store is unchanged. *)
Lemma list_invoices_run (c s : option string) (db : option Database) :
  list_invoices c s db
  = (Ok (List.filter
           (fun d => eq_if c (Invoice.clinic_id d.2)
                     && eq_if s (Invoice.status_str (Invoice.status d.2)))
           (stored_invoices db)), db).
Proof.
  unfold list_invoices. rewrite get_documents_run.
  f_equal. f_equal. destruct db as [st |]; [| reflexivity].
  apply filter_ext. intros [id i]. apply invoice_query_matches.
Qed.

(** [list_payments] answers with exactly the stored payments, in
    store order, whose clinic_id and invoice_id equal the parameters that
    are given and non-empty; the store is unchanged. *)
Lemma list_payments_run (c i : option string) (db : option Database) :
  list_payments c i db
  = (Ok (List.filter
           (fun d => eq_if c (Payment.clinic_id d.2)
                     && eq_if i (Payment.invoice_id d.2))
           (stored_payments db)), db).
Proof.
  unfold list_payments. rewrite get_documents_run.
  f_equal. f_equal. destruct db as [st |]; [| reflexivity].
  apply filter_ext. intros [id p]. apply payment_query_matches.
Qed.

(** X3.  The [status] parameter of [list_invoices] is not checked against
    the statuses an invoice can have: a non-empty value that is none of
    them is answered with the empty list, not with an error. *)
Theorem list_invoices_unknown_status (c : option string) (s : string)
    (db : option Database)
    (Hne : s <> "")
    (Hunknown : forall x, Invoice.status_str x <> s) :
  list_invoices c (Some s) db = (Ok [], db).
Proof.
  rewrite list_invoices_run. f_equal. f_equal.
  induction (stored_invoices db) as [| [id i] l IH]; [reflexivity |].
  simpl. rewrite IH.
  assert (eq_if (Some s) (Invoice.status_str (Invoice.status i)) = false)
    as ->.
  { unfold eq_if, truthy.
    destruct (String.eqb_spec s ""); [done |]. simpl.
    apply String.eqb_neq. intros Heq. by apply (Hunknown (Invoice.status i)). }
  by rewrite andb_false_r.
Qed.

(** ** Listing appointments *)

Lemma ops_holds_empty (v : value) : clause_holds (COps ∅) (Some v) = true.
Proof. apply ops_hold_true. intros op b Hop. by rewrite lookup_empty in Hop. Qed.

Lemma ops_holds_insert (op : string) (b : value) (ops : gmap string value)
    (v : value) :
  ops !! op = None ->
  clause_holds (COps (<[op := b]> ops)) (Some v)
  = op_holds op b v && clause_holds (COps ops) (Some v).
Proof.
  intros Hop. apply eq_true_iff_eq.
  rewrite andb_true_iff, !ops_hold_true. split.
  - intros Hall. split.
    + apply (Hall op b), lookup_insert_eq.
    + intros op' b' Hop'. apply Hall.
      rewrite lookup_insert_ne; [done |]. intros <-. congruence.
  - intros [Hb Hall] op' b' Hop'.
    apply lookup_insert_Some in Hop' as [[<- <-] | [_ Hop']]; [done |].
    by apply Hall.
Qed.

Lemma appointment_base_matches (c d p : option string) (a : Appointment.t) :
  matches (appointment_base_query c d p) (model_dump a)
  = eq_if c (Appointment.clinic_id a) && eq_if d (Appointment.doctor_id a)
    && eq_if p (Appointment.patient_id a).
Proof.
  unfold appointment_base_query.
  rewrite (matches_set_if "patient_id" p _ _ (Appointment.patient_id a));
    [| by rewrite !set_if_lookup_ne | reflexivity].
  rewrite (matches_set_if "doctor_id" d _ _ (Appointment.doctor_id a));
    [| by rewrite !set_if_lookup_ne | reflexivity].
  rewrite (matches_set_if "clinic_id" c _ _ (Appointment.clinic_id a));
    [| apply lookup_empty | reflexivity].
  rewrite matches_empty, andb_true_r.
  destruct (eq_if c _), (eq_if d _), (eq_if p _); reflexivity.
Qed.

Lemma appointment_base_no_starts_at (c d p : option string) :
  appointment_base_query c d p !! "starts_at" = None.
Proof. unfold appointment_base_query. by rewrite !set_if_lookup_ne. Qed.

Lemma date_clause_matches (c d p : option string)
    (ops : gmap string value) (lo hi : option datetime) (a : Appointment.t) :
  clause_holds (COps ops) (Some (VDate (Appointment.starts_at a)))
  = in_bounds lo hi (Appointment.starts_at a) ->
  matches (<["starts_at" := COps ops]> (appointment_base_query c d p))
    (model_dump a)
  = eq_if c (Appointment.clinic_id a) && eq_if d (Appointment.doctor_id a)
    && eq_if p (Appointment.patient_id a)
    && in_bounds lo hi (Appointment.starts_at a).
Proof.
  intros Hops.
  rewrite matches_insert by apply appointment_base_no_starts_at.
  rewrite appointment_dump_starts_at, Hops, appointment_base_matches.
  apply andb_comm.
Qed.

(** The filter [list_appointments] builds when both date parameters are
    usable, and what it matches. *)
Lemma list_appointments_query_ok (c d p f t : option string)
    (lo hi : option datetime) :
  lower_bound f = Ok lo -> upper_bound t = Ok hi ->
  exists q,
    list_appointments_query c d p f t = Ok q /\
    forall a,
      matches q (model_dump a)
      = eq_if c (Appointment.clinic_id a) && eq_if d (Appointment.doctor_id a)
        && eq_if p (Appointment.patient_id a)
        && in_bounds lo hi (Appointment.starts_at a).
Proof.
  unfold lower_bound, upper_bound, list_appointments_query.
  fold (appointment_base_query c d p).
  destruct (truthy f) eqn:Hf, (truthy t) eqn:Ht; cbn [orb].
  - destruct (strptime (default "" f) "%Y-%m-%d") as [d1 |]; [| discriminate].
    destruct (strptime (default "" t) "%Y-%m-%d") as [d2 |]; [| discriminate].
    cbn [mbind result_bind mret result_ret].
    destruct (timedelta_days 1) as [delta |]; [| discriminate].
    cbn [mbind result_bind mret result_ret].
    destruct (add d2 delta) as [d2' |]; [| discriminate].
    cbn [mbind result_bind mret result_ret].
    intros [= <-] [= <-]. eexists. split; [reflexivity |]. intros a.
    apply date_clause_matches.
    rewrite ops_holds_insert by done.
    rewrite ops_holds_insert by apply lookup_empty.
    rewrite ops_holds_empty, andb_true_r. apply andb_comm.
  - destruct (strptime (default "" f) "%Y-%m-%d") as [d1 |]; [| discriminate].
    cbn [mbind result_bind mret result_ret].
    intros [= <-] [= <-]. eexists. split; [reflexivity |]. intros a.
    apply date_clause_matches.
    rewrite ops_holds_insert by apply lookup_empty.
    rewrite ops_holds_empty. reflexivity.
  - destruct (strptime (default "" t) "%Y-%m-%d") as [d2 |]; [| discriminate].
    cbn [mbind result_bind mret result_ret].
    destruct (timedelta_days 1) as [delta |]; [| discriminate].
    cbn [mbind result_bind mret result_ret].
    destruct (add d2 delta) as [d2' |]; [| discriminate].
    cbn [mbind result_bind mret result_ret].
    intros [= <-] [= <-]. eexists. split; [reflexivity |]. intros a.
    apply date_clause_matches.
    rewrite ops_holds_insert by apply lookup_empty.
    rewrite ops_holds_empty, andb_true_r. reflexivity.
  - intros [= <-] [= <-]. eexists. split; [reflexivity |]. intros a.
    rewrite appointment_base_matches. unfold in_bounds.
    by rewrite andb_true_r.
Qed.

Lemma list_appointments_run (c d p f t : option string)
    (db : option Database) :
  list_appointments c d p f t db
  = match list_appointments_query c d p f t with
    | Ok q => (Ok (List.filter (doc_matches q) (stored_appointments db)), db)
    | Raise e => (Raise e, db)
    end.
Proof.
  unfold list_appointments. unfold mbind at 1. unfold M_bind, lift.
  destruct (list_appointments_query c d p f t) as [q | e]; [| reflexivity].
  by destruct db.
Qed.

(** When the date parameters that are given parse, [list_appointments]
    answers with exactly the stored appointments, in store order, whose
    clinic, doctor and patient ids equal the parameters that are given and
    non-empty and whose [starts_at] is at or after midnight of [from_date]
    and at or before midnight of the day after [to_date]; the store is
    unchanged. *)
Lemma list_appointments_filtered (c d p f t : option string)
    (db : option Database) (lo hi : option datetime)
    (Hlo : lower_bound f = Ok lo) (Hhi : upper_bound t = Ok hi) :
  list_appointments c d p f t db
  = (Ok (List.filter
           (fun x => eq_if c (Appointment.clinic_id x.2)
                     && eq_if d (Appointment.doctor_id x.2)
                     && eq_if p (Appointment.patient_id x.2)
                     && in_bounds lo hi (Appointment.starts_at x.2))
           (stored_appointments db)), db).
Proof.
  destruct (list_appointments_query_ok c d p f t lo hi Hlo Hhi)
    as (q & Hq & Hmatch).
  rewrite list_appointments_run, Hq. f_equal. f_equal.
  apply filter_ext. intros [id a]. apply Hmatch.
Qed.

(** The upper bound is the midnight that follows [to_date]. *)
Lemma upper_bound_next_midnight (t : string) (m : datetime) :
  t <> "" -> strptime t "%Y-%m-%d" = Ok m ->
  m + us_per_day <= datetime_max ->
  upper_bound (Some t) = Ok (Some (m + us_per_day)).
Proof.
  intros Hne Hp Hmax. unfold upper_bound.
  assert (truthy (Some t) = true) as ->
    by (unfold truthy; by destruct (String.eqb_spec t "")).
  change (default "" (Some t)) with t.
  rewrite Hp. cbn [mbind result_bind mret result_ret].
  pose proof (strptime_range _ _ _ Hp) as Hm.
  pose proof datetime_max_val as Hval.
  unfold timedelta_days, mk_timedelta.
  match goal with |- ((if ?b then _ else _) ≫= _) = _ =>
    assert (b = true) as -> by (unfold us_per_day; apply andb_true_iff; lia) end.
  cbn [mbind result_bind mret result_ret]. unfold add.
  match goal with |- ((if ?b then _ else _) ≫= _) = _ =>
    assert (b = true) as ->
      by (unfold datetime_min, us_per_day in *; apply andb_true_iff; lia) end.
  reflexivity.
Qed.

(** X5.  With only [to_date] given, an appointment that starts exactly at
    midnight of the day after [to_date] is part of the answer: the bound
    is inclusive there. *)
Theorem list_appointments_to_date_includes_next_midnight
    (t : string) (m : datetime) (db : option Database)
    (id : ObjectId) (a : Appointment.t)
    (Hne : t <> "")
    (Hparse : strptime t "%Y-%m-%d" = Ok m)
    (Hmax : m + us_per_day <= datetime_max)
    (Hstored : In (id, a) (stored_appointments db))
    (Hstart : Appointment.starts_at a = m + us_per_day) :
  exists l,
    list_appointments None None None None (Some t) db = (Ok l, db) /\
    In (id, a) l.
Proof.
  eexists. split.
  - apply (list_appointments_filtered None None None None (Some t) db None
             (Some (m + us_per_day))); [reflexivity |].
    by apply upper_bound_next_midnight.
  - apply filter_In. split; [exact Hstored |].
    cbn [snd]. unfold eq_if, in_bounds. cbn [truthy andb].
    rewrite Hstart. apply Z.leb_refl.
Qed.

(** X6.  A date parameter that is given and does not parse makes
    [list_appointments] raise [ValueError], which nothing catches: the
    answer is a 500 and the store is unchanged.  [from_date] is read
    first. *)
Theorem list_appointments_unparsable_date (c d p f t : option string)
    (db : option Database)
    (Hbad : (truthy f = true /\
             strptime (default "" f) "%Y-%m-%d" = Raise ValueError) \/
            ((truthy f = false \/
              exists m, strptime (default "" f) "%Y-%m-%d" = Ok m) /\
             truthy t = true /\
             strptime (default "" t) "%Y-%m-%d" = Raise ValueError)) :
  list_appointments c d p f t db = (Raise ValueError, db) /\
  http_status ValueError = 500.
Proof.
  split; [| reflexivity].
  rewrite list_appointments_run. unfold list_appointments_query.
  destruct Hbad as [[Hf Hp] | [Hf [Ht Hp]]].
  - rewrite Hf, Hp. reflexivity.
  - rewrite Ht, Hp, orb_true_r.
    destruct Hf as [-> | [m Hm]]; [reflexivity |].
    rewrite Hm. by destruct (truthy f).
Qed.

Lemma list_invoices_unknown_status_witness :
  "refunded" <> "" /\
  (forall x, Invoice.status_str x <> "refunded") /\
  list_invoices None (Some "refunded") Day.billed = (Ok [], Day.billed).
Proof.
  assert ("refunded" <> "") as H1 by discriminate.
  assert (forall x, Invoice.status_str x <> "refunded") as H2
    by (intros x; destruct x; discriminate).
  split; [exact H1 |]. split; [exact H2 |].
  exact (list_invoices_unknown_status None "refunded" Day.billed H1 H2).
Defined.

Lemma list_appointments_to_date_includes_next_midnight_witness :
  exists l,
    list_appointments None None None None (Some "2024-01-15") Day.store
    = (Ok l, Day.store) /\
    In (1%N, Day.at_midnight) l.
Proof.
  refine (list_appointments_to_date_includes_next_midnight
            "2024-01-15" Day.jan_15 Day.store 1%N Day.at_midnight _ _ _ _ _).
  - discriminate.
  - vm_compute. reflexivity.
  - vm_compute. discriminate.
  - simpl. right. left. reflexivity.
  - reflexivity.
Defined.

Lemma list_appointments_unparsable_date_witness :
  list_appointments None None None (Some "15/01/2024") None Day.store
  = (Raise ValueError, Day.store) /\
  http_status ValueError = 500.
Proof.
  refine (list_appointments_unparsable_date None None None
            (Some "15/01/2024") None Day.store _).
  left. split; vm_compute; reflexivity.
Defined.

(** ** Empty parameters *)

Lemma truthy_drop_empty (v : option string) :
  truthy (drop_empty v) = truthy v.
Proof. unfold drop_empty. by destruct (truthy v) eqn:Hv. Qed.

Lemma set_if_drop_empty (k : string) (v : option string)
    (query : gmap string clause) :
  set_if k (drop_empty v) query = set_if k v query.
Proof.
  unfold drop_empty. destruct (truthy v) eqn:Hv; [reflexivity |].
  unfold set_if. destruct v as [s |]; [| reflexivity]. by rewrite Hv.
Qed.

Lemma default_drop_empty (v : option string) :
  truthy v = true -> default "" (drop_empty v) = default "" v.
Proof. unfold drop_empty. by intros ->. Qed.

Lemma list_appointments_query_drop_empty (c d p f t : option string) :
  list_appointments_query (drop_empty c) (drop_empty d) (drop_empty p)
    (drop_empty f) (drop_empty t)
  = list_appointments_query c d p f t.
Proof.
  unfold list_appointments_query.
  rewrite !set_if_drop_empty, !truthy_drop_empty.
  destruct (truthy f) eqn:Hf, (truthy t) eqn:Ht; cbn [orb];
    rewrite ?default_drop_empty by done; reflexivity.
Qed.

(** X7.  On the three list endpoints a parameter given as the empty
    string is treated exactly like one that is absent. *)
Theorem empty_parameters_are_ignored (c d p f t s i : option string)
    (db : option Database) :
  list_appointments (drop_empty c) (drop_empty d) (drop_empty p)
    (drop_empty f) (drop_empty t) db
  = list_appointments c d p f t db /\
  list_invoices (drop_empty c) (drop_empty s) db = list_invoices c s db /\
  list_payments (drop_empty c) (drop_empty i) db = list_payments c i db.
Proof.
  split; [| split].
  - by rewrite !list_appointments_run, list_appointments_query_drop_empty.
  - unfold list_invoices, list_invoices_query.
    by rewrite !set_if_drop_empty.
  - unfold list_payments, list_payments_query.
    by rewrite !set_if_drop_empty.
Qed.

(** ** Creating, then listing *)

Lemma eq_if_self (s : string) : eq_if (Some s) s = true.
Proof.
  unfold eq_if. destruct (truthy (Some s)); [| reflexivity].
  apply String.eqb_refl.
Qed.

Lemma filter_snoc {A : Type} (f : A -> bool) (l : list A) (x : A) :
  f x = true -> List.filter f (l ++ [x]) = (List.filter f l ++ [x])%list.
Proof. intros Hx. rewrite List.filter_app. simpl. by rewrite Hx. Qed.


(** ** The analytics summary *)

Lemma clinic_query_matches {A : Type} `{Collection A} (c field : string)
    (d : ObjectId * A) :
  model_dump d.2 !! "clinic_id" = Some (VStr field) ->
  doc_matches {[ "clinic_id" := CEq (VStr c) ]} d = String.eqb c field.
Proof.
  intros Hf. unfold doc_matches.
  change ({[ "clinic_id" := CEq (VStr c) ]} : gmap string clause)
    with (<["clinic_id" := CEq (VStr c)]> (∅ : gmap string clause)).
  rewrite matches_insert by apply lookup_empty.
  rewrite Hf, matches_empty, andb_true_r. reflexivity.
Qed.

(** [analytics_summary] answers with the stored appointments,
    invoices and payments whose clinic_id equals its [clinic_id], in store
    order and without aggregating them; [period] and [date] play no part
    and the store is unchanged.  Unlike the list endpoints it applies the
    test to an empty [clinic_id] too. *)
Lemma analytics_summary_run (c period : string) (date : option string)
    (db : option Database) :
  analytics_summary c period date db
  = (Ok (mkSummary
           (List.filter (fun d => String.eqb c (Appointment.clinic_id d.2))
              (stored_appointments db))
           (List.filter (fun d => String.eqb c (Invoice.clinic_id d.2))
              (stored_invoices db))
           (List.filter (fun d => String.eqb c (Payment.clinic_id d.2))
              (stored_payments db))), db).
Proof.
  unfold analytics_summary.
  unfold mbind at 1. unfold M_bind at 1. rewrite get_documents_run.
  unfold mbind at 1. unfold M_bind at 1. rewrite get_documents_run.
  unfold mbind at 1. unfold M_bind at 1. rewrite get_documents_run.
  unfold mret, M_ret. f_equal. f_equal.
  destruct db as [st |]; [| reflexivity].
  cbn [stored_appointments stored_invoices stored_payments].
  f_equal; apply filter_ext; intros d; by apply clinic_query_matches.
Qed.

(** X10.  For a non-empty [clinic_id] the summary is what the three list
    endpoints answer for that clinic alone. *)
Theorem analytics_summary_agrees_with_lists (c period : string)
    (date : option string) (db : option Database)
    (Hne : c <> "") :
  exists appts invoices payments,
    list_appointments (Some c) None None None None db = (Ok appts, db) /\
    list_invoices (Some c) None db = (Ok invoices, db) /\
    list_payments (Some c) None db = (Ok payments, db) /\
    analytics_summary c period date db
    = (Ok (mkSummary appts invoices payments), db).
Proof.
  assert (truthy (Some c) = true) as Ht
    by (unfold truthy; by destruct (String.eqb_spec c "")).
  eexists _, _, _. split; [| split; [| split]].
  - apply (list_appointments_filtered (Some c) None None None None db
             None None); reflexivity.
  - apply list_invoices_run.
  - apply list_payments_run.
  - rewrite analytics_summary_run. f_equal. f_equal.
    f_equal; apply filter_ext; intros d; unfold eq_if, in_bounds;
      rewrite Ht; cbn [truthy default andb]; by rewrite ?andb_true_r.
Qed.

Lemma analytics_summary_agrees_with_lists_witness :
  exists appts invoices payments,
    list_appointments (Some "clinic") None None None None Day.store
    = (Ok appts, Day.store) /\
    list_invoices (Some "clinic") None Day.store = (Ok invoices, Day.store) /\
    list_payments (Some "clinic") None Day.store = (Ok payments, Day.store) /\
    analytics_summary "clinic" "month" None Day.store
    = (Ok (mkSummary appts invoices payments), Day.store).
Proof.
  refine (analytics_summary_agrees_with_lists "clinic" "month" None
            Day.store _).
  discriminate.
Defined.

(** With an empty [clinic_id] the two part ways: the list endpoint
    answers with every invoice, the summary with none of them here. *)
Example analytics_summary_empty_clinic :
  (list_invoices (Some "") None Day.billed).1 = Ok [(0%N, Day.invoice)] /\
  (analytics_summary "" "month" None Day.billed).1 = Ok (mkSummary [] [] []).
Proof. split; vm_compute; reflexivity. Qed.

(** ** Sequences of requests *)

(** What one call does to the store: nothing, or one document appended
    under the next identifier. *)
Lemma step_cases (db : option Database) (c : call) :
  step db c = db \/
  exists st, db = Some st /\
    ((exists req s e,
        c = PostAppointment req /\
        (create_appointment req db).1 = Ok (next_id st) /\
        overlapping db (doctor_id req) s e = [] /\
        step db c = Some (insert_one (next_id st, appointment_of req s e) st)) \/
     (exists i : Invoice.t,
        Invoice.status i = Invoice.unpaid /\
        step db c = Some (insert_one (next_id st, i) st)) \/
     (exists p : Payment.t,
        step db c = Some (insert_one (next_id st, p) st))).
Proof.
  destruct c; cbn [step].
  - destruct (create_appointment req db) as [[id | err] db'] eqn:Hrun.
    + pose proof Hrun as Hrun'.
      apply create_appointment_ok_inv in Hrun
        as (s & e & st & _ & _ & _ & Hov & -> & -> & ->).
      right. exists st. split; [reflexivity |]. left. exists req, s, e.
      rewrite Hrun'. split; [reflexivity |]. split; [reflexivity |].
      split; [exact Hov | reflexivity].
    + apply create_appointment_raise_inv in Hrun as ->. by left.
  - left. rewrite list_appointments_run.
    by destruct (list_appointments_query _ _ _ _ _).
  - destruct db as [st |]; [| by left].
    right. exists st. split; [reflexivity |]. right. left.
    eexists. split; [| reflexivity]. reflexivity.
  - left. by rewrite list_invoices_run.
  - destruct db as [st |]; [| by left].
    right. exists st. split; [reflexivity |]. right. right.
    eexists. reflexivity.
  - left. by rewrite list_payments_run.
  - left. by rewrite analytics_summary_run.
Qed.

Lemma ForallOrdPairs_snoc {A : Type} (R : A -> A -> Prop) (l : list A)
    (x : A) :
  ForallOrdPairs R l -> Forall (fun y => R y x) l ->
  ForallOrdPairs R (l ++ [x]).
Proof.
  induction 1 as [| a l Ha Hl IH]; intros Hx.
  - repeat constructor.
  - apply Forall_cons_iff in Hx as [Hax Hx]. simpl. constructor.
    + apply Forall_app. split; [exact Ha | by constructor].
    + by apply IH.
Qed.

Lemma not_overlapping_new (db : option Database) (req : AppointmentRequest)
    (s e : datetime) :
  overlapping db (doctor_id req) s e = [] ->
  Forall (fun y => ~ overlaps y.2 (appointment_of req s e))
    (stored_appointments db).
Proof.
  intros Hov. apply List.Forall_forall. intros d Hd [Hdoc [Hs He]].
  assert (In d (overlapping db (doctor_id req) s e)) as Hin
    by (apply overlapping_In; auto).
  by rewrite Hov in Hin.
Qed.

Lemma step_keeps_no_double_booking (db : option Database) (c : call) :
  no_double_booking (stored_appointments db) ->
  no_double_booking (stored_appointments (step db c)).
Proof.
  intros Hinv.
  destruct (step_cases db c)
    as [-> | (st & -> & [(req & s & e & _ & _ & Hov & ->)
                        | [(i & _ & ->) | (p & ->)]])];
    try exact Hinv.
  apply ForallOrdPairs_snoc; [exact Hinv |].
  by apply (not_overlapping_new (Some st)).
Qed.

(** X11.  Whatever requests follow one another, a store in which no two
    appointments of one doctor overlap stays that way: the overlap check
    of [create_appointment] guards every insertion, and no other endpoint
    writes appointments. *)
Theorem no_double_booking_is_kept (calls : list call) (db : option Database)
    (Hinv : no_double_booking (stored_appointments db)) :
  no_double_booking (stored_appointments (run db calls)).
Proof.
  unfold run. revert db Hinv.
  induction calls as [| c calls IH]; intros db Hinv; [exact Hinv |].
  simpl. apply IH. by apply step_keeps_no_double_booking.
Qed.

Lemma step_keeps_statuses (db : option Database) (c : call) :
  Forall (fun d => Appointment.status d.2 = Appointment.scheduled)
    (stored_appointments db) /\
  Forall (fun d => Invoice.status d.2 = Invoice.unpaid) (stored_invoices db) ->
  Forall (fun d => Appointment.status d.2 = Appointment.scheduled)
    (stored_appointments (step db c)) /\
  Forall (fun d => Invoice.status d.2 = Invoice.unpaid)
    (stored_invoices (step db c)).
Proof.
  intros [Ha Hi].
  destruct (step_cases db c)
    as [-> | (st & -> & [(req & s & e & _ & _ & Hov & ->)
                        | [(i & Hst & ->) | (p & ->)]])];
    try (split; assumption).
  - split; [| exact Hi].
    apply Forall_app. split; [exact Ha | by repeat constructor].
  - split; [exact Ha |].
    apply Forall_app. split; [exact Hi | by repeat constructor].
Qed.

(** X12.  No sequence of requests changes a status: starting from a
    store whose appointments are all "scheduled" and whose invoices are
    all "unpaid" (the empty store, for one), every stored appointment is
    still "scheduled" and every stored invoice still "unpaid". *)
Theorem statuses_never_change (calls : list call) (db : option Database)
    (Hinit :
       Forall (fun d => Appointment.status d.2 = Appointment.scheduled)
         (stored_appointments db) /\
       Forall (fun d => Invoice.status d.2 = Invoice.unpaid)
         (stored_invoices db)) :
  Forall (fun d => Appointment.status d.2 = Appointment.scheduled)
    (stored_appointments (run db calls)) /\
  Forall (fun d => Invoice.status d.2 = Invoice.unpaid)
    (stored_invoices (run db calls)).
Proof.
  unfold run. revert db Hinit.
  induction calls as [| c calls IH]; intros db Hinit; [exact Hinit |].
  simpl. apply IH. by apply step_keeps_statuses.
Qed.

Lemma step_grows (db : option Database) (c : call) :
  exists la li lp,
    stored_appointments (step db c) = (stored_appointments db ++ la)%list /\
    stored_invoices (step db c) = (stored_invoices db ++ li)%list /\
    stored_payments (step db c) = (stored_payments db ++ lp)%list.
Proof.
  destruct (step_cases db c)
    as [-> | (st & -> & [(req & s & e & _ & _ & Hov & ->)
                        | [(i & Hst & ->) | (p & ->)]])].
  - exists [], [], []. by rewrite !app_nil_r.
  - eexists [_], [], []. cbn. by rewrite !app_nil_r.
  - eexists [], [_], []. cbn. by rewrite !app_nil_r.
  - eexists [], [], [_]. cbn. by rewrite !app_nil_r.
Qed.

(** X13.  Nothing is ever updated or deleted: after any sequence of
    requests each collection is what it was, followed by the documents
    created since. *)
Theorem store_only_grows (calls : list call) (db : option Database) :
  exists la li lp,
    stored_appointments (run db calls) = (stored_appointments db ++ la)%list /\
    stored_invoices (run db calls) = (stored_invoices db ++ li)%list /\
    stored_payments (run db calls) = (stored_payments db ++ lp)%list.
Proof.
  unfold run. revert db.
  induction calls as [| c calls IH]; intros db.
  - exists [], [], []. by rewrite !app_nil_r.
  - simpl. destruct (IH (step db c)) as (la & li & lp & -> & -> & ->).
    destruct (step_grows db c) as (la' & li' & lp' & -> & -> & ->).
    exists (la' ++ la)%list, (li' ++ li)%list, (lp' ++ lp)%list.
    by rewrite !app_assoc.
Qed.

Lemma no_double_booking_is_kept_witness :
  no_double_booking (stored_appointments Sample.one_booking) /\
  no_double_booking
    (stored_appointments (run Sample.one_booking Session.calls)).
Proof.
  assert (no_double_booking (stored_appointments Sample.one_booking)) as H
    by (repeat constructor).
  split; [exact H |].
  exact (no_double_booking_is_kept Session.calls Sample.one_booking H).
Defined.

Lemma statuses_never_change_witness :
  Forall (fun d => Appointment.status d.2 = Appointment.scheduled)
    (stored_appointments (run Sample.empty_store Session.calls)) /\
  Forall (fun d => Invoice.status d.2 = Invoice.unpaid)
    (stored_invoices (run Sample.empty_store Session.calls)).
Proof.
  refine (statuses_never_change Session.calls Sample.empty_store _).
  split; constructor.
Defined.

(** The sample session on the 10:00 to 10:30 booking: the 10:15 request
    is turned down, the 10:30 one and the invoice are stored. *)
Example session_outcome :
  run Sample.one_booking Session.calls
  = Some (mkDatabase
            [(0%N, Sample.booked);
             (1%N, Appointment.mk "clinic" "D" "patient" Sample.t_10_30
                     63840913200000000 None Appointment.scheduled)]
            [(2%N, Day.invoice)] [] 3%N).
Proof. vm_compute. reflexivity. Qed.

(** ** Outcomes of appointment creation *)

Lemma overlapping_nil (db : option Database) (doctor : string)
    (s e : datetime) :
  overlapping db doctor s e = [] <->
  forall d, In d (stored_appointments db) ->
    ~ (Appointment.doctor_id d.2 = doctor /\
       Appointment.starts_at d.2 < e /\ Appointment.ends_at d.2 > s).
Proof.
  split.
  - intros Hnil d Hd Hov.
    assert (In d (overlapping db doctor s e)) as Hin
      by (apply overlapping_In; auto).
    by rewrite Hnil in Hin.
  - intros Hall. destruct (overlapping db doctor s e) as [| d l] eqn:Hov;
      [reflexivity |].
    assert (In d (overlapping db doctor s e)) as Hin by (rewrite Hov; by left).
    apply overlapping_In in Hin as [Hd Hm]. by destruct (Hall d Hd).
Qed.

(** X14.  On a reachable store [create_appointment] succeeds exactly when
    date and start_time parse, the start plus duration_minutes is still a
    datetime, and no stored appointment of the doctor starts before that
    end and ends after that start. *)
Theorem create_appointment_succeeds_iff (req : AppointmentRequest)
    (st : Database) :
  (exists id, (create_appointment req (Some st)).1 = Ok id) <->
  exists s,
    strptime (date req ++ " " ++ start_time req) appointment_format = Ok s /\
    datetime_min <= s + duration_minutes req * us_per_minute <= datetime_max /\
    forall d, In d (appointments st) ->
      ~ (Appointment.doctor_id d.2 = doctor_id req /\
         Appointment.starts_at d.2 < s + duration_minutes req * us_per_minute /\
         Appointment.ends_at d.2 > s).
Proof.
  split.
  - intros [id Hid].
    destruct (create_appointment req (Some st)) as [r db'] eqn:Hrun.
    cbn [fst] in Hid. subst r.
    apply create_appointment_ok_inv in Hrun
      as (s & e & st' & Hp & -> & Hr & Hov & _ & _ & _).
    exists s. split; [exact Hp |]. split; [exact Hr |].
    by apply (overlapping_nil (Some st)).
  - intros (s & Hp & Hr & Hfree).
    pose proof (end_instant_ok s (duration_minutes req)
                  (strptime_range _ _ _ Hp) Hr) as He.
    rewrite (create_appointment_checked _ _ _ _ Hp He).
    apply (overlapping_nil (Some st)) in Hfree. rewrite Hfree.
    eexists. reflexivity.
Qed.

(** X15.  Which error [create_appointment] raises is settled by the
    request alone, before the store is read: the 400 exactly when date and
    start_time do not parse, an uncaught [OverflowError] (a 500) exactly
    when they parse and the start plus duration_minutes is no datetime. *)
Theorem create_appointment_request_errors (req : AppointmentRequest)
    (db : option Database) :
  ((create_appointment req db).1
   = Raise (HTTPException 400 "Invalid date or time format") <->
   strptime (date req ++ " " ++ start_time req) appointment_format
   = Raise ValueError) /\
  ((create_appointment req db).1 = Raise OverflowError <->
   exists s,
     strptime (date req ++ " " ++ start_time req) appointment_format = Ok s /\
     ~ (datetime_min <= s + duration_minutes req * us_per_minute
        <= datetime_max)).
Proof.
  destruct (strptime (date req ++ " " ++ start_time req) appointment_format)
    as [s | err] eqn:Hp.
  - destruct (decide (datetime_min <= s + duration_minutes req * us_per_minute
                      <= datetime_max)) as [Hin | Hout].
    + pose proof (end_instant_ok s _ (strptime_range _ _ _ Hp) Hin) as He.
      rewrite (create_appointment_checked _ _ _ _ Hp He).
      assert (forall x : exn,
                x = OverflowError \/
                x = HTTPException 400 "Invalid date or time format" ->
                (match overlapping db (doctor_id req) s
                         (s + duration_minutes req * us_per_minute) with
                 | [] => create_document
                           (appointment_of req s
                              (s + duration_minutes req * us_per_minute)) db
                 | _ :: _ => (Raise (HTTPException 409 "overlap"), db)
                 end).1 <> Raise x) as Hno.
      { intros x Hx. destruct (overlapping _ _ _ _).
        - destruct db; destruct Hx as [-> | ->]; discriminate.
        - destruct Hx as [-> | ->]; discriminate. }
      split; split.
      * intros H. by apply Hno in H; [| right].
      * discriminate.
      * intros H. by apply Hno in H; [| left].
      * intros (s' & [= <-] & Hout). contradiction.
    + pose proof (end_instant_overflow s _ Hout) as He.
      rewrite (create_appointment_out_of_range _ _ _ _ Hp He).
      split; split.
      * discriminate.
      * discriminate.
      * intros _. by exists s.
      * reflexivity.
  - pose proof (strptime_raises _ _ _ Hp) as ->.
    rewrite (create_appointment_bad_format _ _ Hp).
    split; split.
    + reflexivity.
    + reflexivity.
    + discriminate.
    + intros (s' & [=] & _).
Qed.

Lemma mk_datetime_whole_minutes (y m d h mi : Z) (t : datetime) :
  mk_datetime y m d h mi = Ok t -> t mod us_per_minute = 0.
Proof.
  unfold mk_datetime. destruct (_ && _); [| discriminate].
  intros [= <-].
  replace ((_ymd2ord y m d - 1) * us_per_day + (h * 60 + mi) * us_per_minute)
    with (((_ymd2ord y m d - 1) * 1440 + (h * 60 + mi)) * us_per_minute)
    by (unfold us_per_day, us_per_minute; lia).
  apply Z.mod_mul. discriminate.
Qed.

Lemma strptime_whole_minutes (data_string format : string) (t : datetime) :
  strptime data_string format = Ok t -> t mod us_per_minute = 0.
Proof.
  destruct (strptime_cases data_string format)
    as [-> | (y & m & d & h & mi & ->)]; [discriminate |].
  apply mk_datetime_whole_minutes.
Qed.

(** X16.  Every appointment that [create_appointment] stores starts and
    ends on a whole minute, and both instants lie in the years 1 to
    9999. *)
Theorem persisted_appointment_whole_minutes (req : AppointmentRequest)
    (db db' : option Database) (id : ObjectId)
    (Hrun : create_appointment req db = (Ok id, db')) :
  exists a,
    stored_appointments db' = (stored_appointments db ++ [(id, a)])%list /\
    Appointment.starts_at a mod us_per_minute = 0 /\
    Appointment.ends_at a mod us_per_minute = 0 /\
    datetime_min <= Appointment.starts_at a <= datetime_max /\
    datetime_min <= Appointment.ends_at a <= datetime_max.
Proof.
  apply create_appointment_ok_inv in Hrun
    as (s & e & st & Hp & -> & Hr & _ & -> & -> & ->).
  eexists. split; [reflexivity |]. cbn.
  pose proof (strptime_whole_minutes _ _ _ Hp) as Hs.
  split; [exact Hs |]. split.
  - rewrite Z.add_mod, Hs, Z.mod_mul by discriminate. reflexivity.
  - split; [by eapply strptime_range | exact Hr].
Qed.

Lemma persisted_appointment_whole_minutes_witness :
  exists a,
    stored_appointments
      (Some (mkDatabase
               [(0%N, Sample.booked);
                (1%N, Appointment.mk "clinic" "D" "patient"
                        Sample.t_10_30 63840913200000000 None
                        Appointment.scheduled)] [] [] 2%N))
    = (stored_appointments Sample.one_booking ++ [(1%N, a)])%list /\
    Appointment.starts_at a mod us_per_minute = 0 /\
    Appointment.ends_at a mod us_per_minute = 0 /\
    datetime_min <= Appointment.starts_at a <= datetime_max /\
    datetime_min <= Appointment.ends_at a <= datetime_max.
Proof.
  refine (persisted_appointment_whole_minutes
            (Sample.request "D" "2024-01-15" "10:30" 30)
            Sample.one_booking _ 1%N _).
  vm_compute. reflexivity.
Defined.

(** X17.  The answer of [create_appointment] does not depend on the
    statuses of the stored appointments: rewriting them in any way leaves
    the answer as it is. *)
Theorem create_appointment_answer_ignores_statuses
    (f : ObjectId -> Appointment.t -> Appointment.Status)
    (req : AppointmentRequest) (st : Database) :
  (create_appointment req (Some (restatus f st))).1
  = (create_appointment req (Some st)).1.
Proof.
  destruct (strptime (date req ++ " " ++ start_time req) appointment_format)
    as [s | err] eqn:Hp.
  - destruct (timedelta_minutes (duration_minutes req) ≫= add s)
      as [e | err] eqn:He.
    + rewrite !(create_appointment_checked _ _ _ _ Hp He).
      rewrite overlapping_restatus.
      by destruct (overlapping (Some st) (doctor_id req) s e).
    + by rewrite !(create_appointment_out_of_range _ _ _ _ Hp He).
  - pose proof (strptime_raises _ _ _ Hp) as ->.
    by rewrite !(create_appointment_bad_format _ _ Hp).
Qed.



(** ** Parsing zero-padded input *)

Section MatcherEquations.
Context {A : Type}.
Implicit Types (k : string -> gmap string string -> option A).

Lemma rmatch_lit c c' s g k :
  rmatch (Lit c) (String c' s) g k = if Ascii.eqb c c' then k s g else None.
Proof. reflexivity. Qed.

Lemma rmatch_class p c s g k :
  rmatch (Class p) (String c s) g k = if p c then k s g else None.
Proof. reflexivity. Qed.

Lemma rmatch_cat r1 r2 s g k :
  rmatch (Cat r1 r2) s g k = rmatch r1 s g (fun s' g' => rmatch r2 s' g' k).
Proof. reflexivity. Qed.

Lemma rmatch_or r1 r2 s g k :
  rmatch (Or r1 r2) s g k
  = match rmatch r1 s g k with
    | Some a => Some a
    | None => rmatch r2 s g k
    end.
Proof. reflexivity. Qed.

Lemma rmatch_group name r s g k :
  rmatch (Group name r) s g k
  = rmatch r s g (fun s' g' =>
      k s' (<[name := substring 0 (String.length s - String.length s') s]> g')).
Proof. reflexivity. Qed.

Lemma rmatch_plus_stop p c c' s g k :
  p c = true -> p c' = false ->
  rmatch (Plus p) (String c (String c' s)) g k = k (String c' s) g.
Proof. intros Hc Hc'. simpl. by rewrite Hc, Hc'. Qed.

Lemma or_none (o : option A) :
  match o with Some a => Some a | None => None end = o.
Proof. by destruct o. Qed.
End MatcherEquations.

Lemma substring_none (r : string) : substring 0 0 r = "".
Proof. by destruct r. Qed.

Lemma taken1 (a : ascii) (r : string) :
  substring 0 (String.length (String a r) - String.length r) (String a r)
  = String a "".
Proof.
  replace (String.length (String a r) - String.length r)%nat with 1%nat
    by (simpl; lia).
  simpl. by rewrite substring_none.
Qed.

Lemma taken2 (a b : ascii) (r : string) :
  substring 0 (String.length (String a (String b r)) - String.length r)
    (String a (String b r))
  = String a (String b "").
Proof.
  replace (String.length (String a (String b r)) - String.length r)%nat
    with 2%nat by (simpl; lia).
  simpl. by rewrite substring_none.
Qed.

Lemma taken4 (a b c d : ascii) (r : string) :
  substring 0
    (String.length (String a (String b (String c (String d r))))
     - String.length r)
    (String a (String b (String c (String d r))))
  = String a (String b (String c (String d ""))).
Proof.
  replace (String.length (String a (String b (String c (String d r))))
           - String.length r)%nat with 4%nat by (simpl; lia).
  simpl. by rewrite substring_none.
Qed.

Lemma digit_cases (a : Z) :
  0 <= a <= 9 ->
  a = 0 \/ a = 1 \/ a = 2 \/ a = 3 \/ a = 4 \/ a = 5 \/ a = 6 \/ a = 7
  \/ a = 8 \/ a = 9.
Proof. lia. Qed.

Lemma digit_char_digit (n : Z) : 0 <= n <= 9 -> digit (digit_char n) = true.
Proof.
  intros H. destruct (digit_cases n H) as
    [-> | [-> | [-> | [-> | [-> | [-> | [-> | [-> | [-> | ->]]]]]]]]];
    reflexivity.
Qed.

Lemma digit_char_value (n : Z) :
  0 <= n <= 9 -> Z.of_N (N_of_ascii (digit_char n)) - 48 = n.
Proof.
  intros H. destruct (digit_cases n H) as
    [-> | [-> | [-> | [-> | [-> | [-> | [-> | [-> | [-> | ->]]]]]]]]];
    reflexivity.
Qed.

Lemma digit_not_space (c : ascii) : digit c = true -> space c = false.
Proof.
  unfold digit, in_range, space. cbv zeta.
  change (N_of_ascii "0") with 48%N. change (N_of_ascii "9") with 57%N.
  intros H. apply andb_true_iff in H as [H1 H2].
  apply N.leb_le in H1, H2.
  apply orb_false_iff. split; apply andb_false_iff.
  - right. apply N.leb_gt. lia.
  - right. apply N.leb_gt. lia.
Qed.

(** Evaluate the character tests on literal characters. *)
Ltac eval_tests :=
  repeat match goal with
  | |- context [in_range ?a ?b ?c] =>
      let v := eval vm_compute in (in_range a b c) in
      change (in_range a b c) with v
  | |- context [Ascii.eqb ?a ?b] =>
      let v := eval vm_compute in (Ascii.eqb a b) in
      change (Ascii.eqb a b) with v
  | |- context [digit ?c] =>
      let v := eval vm_compute in (digit c) in
      change (digit c) with v
  end.

Ltac step_match :=
  repeat first
    [ rewrite rmatch_group | rewrite rmatch_or | rewrite rmatch_cat
    | rewrite rmatch_class | rewrite rmatch_lit ];
  eval_tests; cbv beta iota.

Lemma rmatch_month {A : Type} (a b : Z) (rest : string)
    (g : gmap string string) (k : string -> gmap string string -> option A) :
  0 <= a <= 9 -> 0 <= b <= 9 -> guarded k ->
  rmatch month_re (String (digit_char a) (String (digit_char b) rest)) g k
  = if (1 <=? 10 * a + b) && (10 * a + b <=? 12)
    then k rest (<["m" := String (digit_char a) (String (digit_char b) "")]> g)
    else None.
Proof.
  intros Ha Hb Hk. unfold month_re, d2, rng.
  destruct (digit_cases a Ha) as
    [-> | [-> | [-> | [-> | [-> | [-> | [-> | [-> | [-> | ->]]]]]]]]];
  destruct (digit_cases b Hb) as
    [-> | [-> | [-> | [-> | [-> | [-> | [-> | [-> | [-> | ->]]]]]]]]];
  change (digit_char 0) with "0"%char; change (digit_char 1) with "1"%char;
  change (digit_char 2) with "2"%char; change (digit_char 3) with "3"%char;
  change (digit_char 4) with "4"%char; change (digit_char 5) with "5"%char;
  change (digit_char 6) with "6"%char; change (digit_char 7) with "7"%char;
  change (digit_char 8) with "8"%char; change (digit_char 9) with "9"%char;
  step_match; rewrite ?taken1, ?taken2; rewrite ?Hk by reflexivity;
  rewrite ?or_none; reflexivity.
Qed.

Ltac literal_digits :=
  change (digit_char 0) with "0"%char; change (digit_char 1) with "1"%char;
  change (digit_char 2) with "2"%char; change (digit_char 3) with "3"%char;
  change (digit_char 4) with "4"%char; change (digit_char 5) with "5"%char;
  change (digit_char 6) with "6"%char; change (digit_char 7) with "7"%char;
  change (digit_char 8) with "8"%char; change (digit_char 9) with "9"%char.

Ltac each_digit a Ha :=
  destruct (digit_cases a Ha) as
    [-> | [-> | [-> | [-> | [-> | [-> | [-> | [-> | [-> | ->]]]]]]]]].

Lemma rmatch_day {A : Type} (a b : Z) (rest : string)
    (g : gmap string string) (k : string -> gmap string string -> option A) :
  0 <= a <= 9 -> 0 <= b <= 9 -> guarded k ->
  rmatch day_re (String (digit_char a) (String (digit_char b) rest)) g k
  = if (1 <=? 10 * a + b) && (10 * a + b <=? 31)
    then k rest (<["d" := String (digit_char a) (String (digit_char b) "")]> g)
    else None.
Proof.
  intros Ha Hb Hk. unfold day_re, d2, rng, any_digit.
  each_digit a Ha; each_digit b Hb; literal_digits;
  step_match; rewrite ?taken1, ?taken2; rewrite ?Hk by reflexivity;
  rewrite ?or_none; reflexivity.
Qed.

Lemma rmatch_hour {A : Type} (a b : Z) (rest : string)
    (g : gmap string string) (k : string -> gmap string string -> option A) :
  0 <= a <= 9 -> 0 <= b <= 9 -> guarded k ->
  rmatch hour_re (String (digit_char a) (String (digit_char b) rest)) g k
  = if 10 * a + b <=? 23
    then k rest (<["H" := String (digit_char a) (String (digit_char b) "")]> g)
    else None.
Proof.
  intros Ha Hb Hk. unfold hour_re, d2, rng, any_digit.
  each_digit a Ha; each_digit b Hb; literal_digits;
  step_match; rewrite ?taken1, ?taken2; rewrite ?Hk by reflexivity;
  rewrite ?or_none; reflexivity.
Qed.

(** The last field: a minute over 59 is matched by its first digit only,
    which leaves the second unconverted. *)
Lemma rmatch_minute_end (a b : Z) (g : gmap string string) :
  0 <= a <= 9 -> 0 <= b <= 9 ->
  rmatch minute_re (String (digit_char a) (String (digit_char b) "")) g found
  = if a <=? 5
    then Some ("", <["M" := String (digit_char a) (String (digit_char b) "")]> g)
    else Some (String (digit_char b) "",
               <["M" := String (digit_char a) ""]> g).
Proof.
  intros Ha Hb. unfold minute_re, d2, rng, any_digit, found.
  each_digit a Ha; each_digit b Hb; literal_digits;
  step_match; reflexivity.
Qed.

(** The day as last field, for [%Y-%m-%d]. *)
Lemma rmatch_day_end (a b : Z) (g : gmap string string) :
  0 <= a <= 9 -> 0 <= b <= 9 ->
  rmatch day_re (String (digit_char a) (String (digit_char b) "")) g found
  = if 10 * a + b =? 0 then None
    else if 10 * a + b <=? 31
    then Some ("", <["d" := String (digit_char a) (String (digit_char b) "")]> g)
    else Some (String (digit_char b) "",
               <["d" := String (digit_char a) ""]> g).
Proof.
  intros Ha Hb. unfold day_re, d2, rng, any_digit, found.
  each_digit a Ha; each_digit b Hb; literal_digits;
  step_match; reflexivity.
Qed.

Lemma rmatch_year {A : Type} (a b c d : Z) (rest : string)
    (g : gmap string string) (k : string -> gmap string string -> option A) :
  0 <= a <= 9 -> 0 <= b <= 9 -> 0 <= c <= 9 -> 0 <= d <= 9 ->
  rmatch year_re
    (String (digit_char a) (String (digit_char b)
       (String (digit_char c) (String (digit_char d) rest)))) g k
  = k rest (<["Y" := String (digit_char a) (String (digit_char b)
                       (String (digit_char c) (String (digit_char d) "")))]> g).
Proof.
  intros Ha Hb Hc Hd. unfold year_re, any_digit.
  rewrite rmatch_group.
  do 4 (rewrite ?rmatch_cat, rmatch_class, digit_char_digit by done;
        cbv beta iota).
  by rewrite taken4.
Qed.

Lemma guarded_lit {A : Type} (sep : ascii) (r : regex)
    (k : string -> gmap string string -> option A) :
  digit sep = false ->
  guarded (fun s g => rmatch (Cat (Lit sep) r) s g k).
Proof.
  intros Hsep c s g Hc. rewrite rmatch_cat, rmatch_lit.
  destruct (Ascii.eqb_spec sep c) as [-> |]; [congruence | reflexivity].
Qed.

Lemma guarded_plus {A : Type} (r : regex)
    (k : string -> gmap string string -> option A) :
  guarded (fun s g => rmatch (Cat (Plus space) r) s g k).
Proof.
  intros c s g Hc. rewrite rmatch_cat. simpl.
  by rewrite (digit_not_space c Hc).
Qed.

Lemma pattern_appointment_format :
  pattern appointment_format false = Some (Some datetime_re).
Proof. reflexivity. Qed.

Lemma pattern_date_format : pattern "%Y-%m-%d" false = Some (Some date_re).
Proof. reflexivity. Qed.

Lemma py_int_digits2 (a b : Z) :
  0 <= a <= 9 -> 0 <= b <= 9 ->
  py_int (String (digit_char a) (String (digit_char b) "")) = Ok (10 * a + b).
Proof. intros Ha Hb. each_digit a Ha; each_digit b Hb; reflexivity. Qed.

Lemma py_int_digits4 (a b c d : Z) :
  0 <= a <= 9 -> 0 <= b <= 9 -> 0 <= c <= 9 -> 0 <= d <= 9 ->
  py_int (String (digit_char a) (String (digit_char b)
            (String (digit_char c) (String (digit_char d) ""))))
  = Ok (1000 * a + 100 * b + 10 * c + d).
Proof.
  intros Ha Hb Hc Hd. unfold py_int. cbn [lstrip].
  rewrite (digit_not_space _ (digit_char_digit a Ha)).
  cbn [digits_value].
  rewrite !digit_char_digit, !digit_char_value by done.
  f_equal. lia.
Qed.

Section ZeroPadded.
Variables y1 y2 y3 y4 m1 m2 d1 d2 : Z.
Hypothesis Hy1 : 0 <= y1 <= 9.
Hypothesis Hy2 : 0 <= y2 <= 9.
Hypothesis Hy3 : 0 <= y3 <= 9.
Hypothesis Hy4 : 0 <= y4 <= 9.
Hypothesis Hm1 : 0 <= m1 <= 9.
Hypothesis Hm2 : 0 <= m2 <= 9.
Hypothesis Hd1 : 0 <= d1 <= 9.
Hypothesis Hd2 : 0 <= d2 <= 9.

Let year_s : string :=
  String (digit_char y1) (String (digit_char y2)
    (String (digit_char y3) (String (digit_char y4) ""))).
Let month_s : string := String (digit_char m1) (String (digit_char m2) "").
Let day_s : string := String (digit_char d1) (String (digit_char d2) "").

(** The groups after year and month. *)
Let g_month : gmap string string := <["m" := month_s]> (<["Y" := year_s]> ∅).

Lemma re_match_date :
  re_match date_re (year_s ++ "-" ++ month_s ++ "-" ++ day_s)
  = if (1 <=? 10 * m1 + m2) && (10 * m1 + m2 <=? 12)
    then rmatch day_re day_s g_month found
    else None.
Proof.
  unfold re_match, date_re, year_s, month_s, day_s, g_month.
  cbv beta iota fix delta [String.append].
  rewrite rmatch_cat, rmatch_year by done.
  rewrite rmatch_cat, rmatch_lit. eval_tests. cbv beta iota.
  rewrite rmatch_cat, rmatch_month;
    [| done | done | by apply guarded_lit].
  destruct (_ && _); [| reflexivity].
  rewrite rmatch_cat, rmatch_lit. eval_tests. cbv beta iota.
  reflexivity.
Qed.

Variables h1 h2 n1 n2 : Z.
Hypothesis Hh1 : 0 <= h1 <= 9.
Hypothesis Hh2 : 0 <= h2 <= 9.
Hypothesis Hn1 : 0 <= n1 <= 9.
Hypothesis Hn2 : 0 <= n2 <= 9.

Let hour_s : string := String (digit_char h1) (String (digit_char h2) "").
Let minute_s : string := String (digit_char n1) (String (digit_char n2) "").

Lemma re_match_datetime :
  re_match datetime_re
    ((year_s ++ "-" ++ month_s ++ "-" ++ day_s) ++ " "
       ++ hour_s ++ ":" ++ minute_s)
  = if (1 <=? 10 * m1 + m2) && (10 * m1 + m2 <=? 12)
       && ((1 <=? 10 * d1 + d2) && (10 * d1 + d2 <=? 31))
       && (10 * h1 + h2 <=? 23)
    then rmatch minute_re minute_s
           (<["H" := hour_s]> (<["d" := day_s]> g_month)) found
    else None.
Proof.
  unfold re_match, datetime_re, year_s, month_s, day_s, hour_s, minute_s,
    g_month.
  cbv beta iota fix delta [String.append].
  rewrite rmatch_cat, rmatch_year by done.
  rewrite rmatch_cat, rmatch_lit. eval_tests. cbv beta iota.
  rewrite rmatch_cat, rmatch_month;
    [| done | done | by apply guarded_lit].
  destruct (_ && _); [| reflexivity]. cbn [andb].
  rewrite rmatch_cat, rmatch_lit. eval_tests. cbv beta iota.
  rewrite rmatch_cat, rmatch_day; [| done | done | by apply guarded_plus].
  destruct (_ && _); [| reflexivity]. cbn [andb].
  rewrite rmatch_cat, rmatch_plus_stop;
    [| reflexivity | by apply digit_not_space, digit_char_digit].
  rewrite rmatch_cat, rmatch_hour; [| done | done | by apply guarded_lit].
  destruct (_ <=? _); [| reflexivity].
  rewrite rmatch_cat, rmatch_lit. eval_tests. cbv beta iota.
  reflexivity.
Qed.

End ZeroPadded.
Lemma mk_datetime_invalid (y m d h mi : Z) :
  (1 <=? m) && (m <=? 12) && ((1 <=? d) && (d <=? 31)) && (h <=? 23)
  && (mi <=? 59) = false ->
  0 <= h -> 0 <= mi ->
  mk_datetime y m d h mi = Raise ValueError.
Proof.
  intros Hbad Hh Hmi. unfold mk_datetime.
  destruct (_check_date_fields y m d && _check_time_fields h mi) eqn:Hok;
    [| reflexivity].
  apply andb_true_iff in Hok as [Hd Ht].
  unfold _check_date_fields in Hd. unfold _check_time_fields in Ht.
  repeat (apply andb_true_iff in Hd as [Hd ?]).
  repeat (apply andb_true_iff in Ht as [Ht ?]).
  assert (_days_in_month y m <= 31) as Hdim.
  { unfold _days_in_month.
    assert (m = 1 \/ m = 2 \/ m = 3 \/ m = 4 \/ m = 5 \/ m = 6 \/ m = 7
            \/ m = 8 \/ m = 9 \/ m = 10 \/ m = 11 \/ m = 12) as Hc by lia.
    destruct (_is_leap y);
      repeat (destruct Hc as [-> | Hc]); try subst m; simpl; lia. }
  assert ((1 <=? m) && (m <=? 12) && ((1 <=? d) && (d <=? 31)) && (h <=? 23)
          && (mi <=? 59) = true) as Hgood
    by (repeat (apply andb_true_iff; split); lia).
  congruence.
Qed.

Lemma group_lookups (y m d h n : string) :
  let g : gmap string string :=
    <["M" := n]> (<["H" := h]> (<["d" := d]> (<["m" := m]> (<["Y" := y]> ∅))))
  in
  g !! "Y" = Some y /\ g !! "m" = Some m /\ g !! "d" = Some d /\
  g !! "H" = Some h /\ g !! "M" = Some n.
Proof. repeat split. Qed.

Lemma date_group_lookups (y m d : string) :
  let g : gmap string string :=
    <["d" := d]> (<["m" := m]> (<["Y" := y]> ∅))
  in
  g !! "Y" = Some y /\ g !! "m" = Some m /\ g !! "d" = Some d /\
  g !! "H" = None /\ g !! "M" = None.
Proof. repeat split. Qed.

Lemma digits_of (n : Z) :
  0 <= n <= 99 -> 0 <= n / 10 <= 9 /\ 0 <= n mod 10 <= 9 /\
  10 * (n / 10) + n mod 10 = n.
Proof. intros H. Z.div_mod_to_equations. lia. Qed.

Lemma digits_of_year (n : Z) :
  0 <= n <= 9999 ->
  0 <= n / 1000 <= 9 /\ 0 <= n / 100 mod 10 <= 9 /\
  0 <= n mod 100 / 10 <= 9 /\ 0 <= n mod 100 mod 10 <= 9 /\
  1000 * (n / 1000) + 100 * (n / 100 mod 10) + 10 * (n mod 100 / 10)
  + n mod 100 mod 10 = n.
Proof. intros H. Z.div_mod_to_equations. lia. Qed.

(** Input in the zero-padded form YYYY-MM-DD HH:MM is parsed to
    the datetime of its five numbers, and is refused exactly when they
    are no calendar date and time of day: month 0 or above 12, a day the
    month does not have, hour above 23, minute above 59, year 0. *)
Lemma strptime_zero_padded (y m d h mi : Z)
    (Hy : 0 <= y <= 9999) (Hm : 0 <= m <= 99) (Hd : 0 <= d <= 99)
    (Hh : 0 <= h <= 99) (Hmi : 0 <= mi <= 99) :
  strptime (iso_date y m d ++ " " ++ iso_time h mi) appointment_format
  = mk_datetime y m d h mi.
Proof.
  destruct (digits_of_year y Hy) as (Hy1 & Hy2 & Hy3 & Hy4 & Ey).
  destruct (digits_of m Hm) as (Hm1 & Hm2 & Em).
  destruct (digits_of d Hd) as (Hd1 & Hd2 & Ed).
  destruct (digits_of h Hh) as (Hh1 & Hh2 & Eh).
  destruct (digits_of mi Hmi) as (Hn1 & Hn2 & En).
  unfold strptime. rewrite pattern_appointment_format.
  unfold iso_date, iso_time, four_digits, two_digits.
  rewrite re_match_datetime by done.
  rewrite Em, Ed, Eh.
  destruct ((1 <=? m) && (m <=? 12) && ((1 <=? d) && (d <=? 31))
            && (h <=? 23)) eqn:Hfields.
  2: { symmetry. apply mk_datetime_invalid; [| lia | lia].
       by rewrite Hfields. }
  rewrite rmatch_minute_end by done.
  destruct (mi / 10 <=? 5) eqn:Hmin.
  - cbn [String.eqb negb].
    unfold group_int.
    destruct (group_lookups
      (String (digit_char (y / 1000)) (String (digit_char (y / 100 mod 10))
         (String (digit_char (y mod 100 / 10))
            (String (digit_char (y mod 100 mod 10)) ""))))
      (String (digit_char (m / 10)) (String (digit_char (m mod 10)) ""))
      (String (digit_char (d / 10)) (String (digit_char (d mod 10)) ""))
      (String (digit_char (h / 10)) (String (digit_char (h mod 10)) ""))
      (String (digit_char (mi / 10)) (String (digit_char (mi mod 10)) "")))
      as (-> & -> & -> & -> & ->).
    rewrite py_int_digits4, !py_int_digits2 by done.
    cbn [mbind result_bind].
    by rewrite Ey, Em, Ed, Eh, En.
  - assert (negb (String (digit_char (mi mod 10)) "" =? "")%string = true)
      as -> by reflexivity.
    symmetry. apply mk_datetime_invalid; [| lia | lia].
    rewrite Hfields. cbn [andb].
    apply Z.leb_gt. apply Z.leb_gt in Hmin. lia.
Qed.
(** The same for a date alone, as the list endpoint reads it. *)
Lemma strptime_zero_padded_date (y m d : Z) :
  0 <= y <= 9999 -> 0 <= m <= 99 -> 0 <= d <= 99 ->
  strptime (iso_date y m d) "%Y-%m-%d" = mk_datetime y m d 0 0.
Proof.
  intros Hy Hm Hd.
  destruct (digits_of_year y Hy) as (Hy1 & Hy2 & Hy3 & Hy4 & Ey).
  destruct (digits_of m Hm) as (Hm1 & Hm2 & Em).
  destruct (digits_of d Hd) as (Hd1 & Hd2 & Ed).
  unfold strptime. rewrite pattern_date_format.
  unfold iso_date, four_digits, two_digits.
  rewrite re_match_date by done. rewrite Em.
  destruct ((1 <=? m) && (m <=? 12)) eqn:Hmonth.
  2: { symmetry. apply mk_datetime_invalid; [| lia | lia].
       by rewrite Hmonth. }
  rewrite rmatch_day_end by done. rewrite Ed.
  destruct (d =? 0) eqn:Hd0.
  { symmetry. apply mk_datetime_invalid; [| lia | lia].
    apply Z.eqb_eq in Hd0 as ->. by rewrite Hmonth. }
  destruct (d <=? 31) eqn:Hd31.
  - cbn [String.eqb negb]. unfold group_int.
    destruct (date_group_lookups
      (String (digit_char (y / 1000)) (String (digit_char (y / 100 mod 10))
         (String (digit_char (y mod 100 / 10))
            (String (digit_char (y mod 100 mod 10)) ""))))
      (String (digit_char (m / 10)) (String (digit_char (m mod 10)) ""))
      (String (digit_char (d / 10)) (String (digit_char (d mod 10)) "")))
      as (-> & -> & -> & -> & ->).
    rewrite py_int_digits4, !py_int_digits2 by done.
    cbn [mbind result_bind].
    by rewrite Ey, Em, Ed.
  - assert (negb (String (digit_char (d mod 10)) "" =? "")%string = true)
      as -> by reflexivity.
    symmetry. apply mk_datetime_invalid; [| lia | lia].
    by rewrite Hmonth, Hd31, andb_false_r.
Qed.

Lemma end_instant_raises (s : datetime) (n : Z) (e : exn) :
  (timedelta_minutes n ≫= add s) = Raise e -> e = OverflowError.
Proof.
  unfold timedelta_minutes, mk_timedelta.
  match goal with |- ((if ?b then _ else _) ≫= _) = _ -> _ => destruct b end;
    [| by intros [= <-]].
  cbn [mbind result_bind]. unfold add.
  match goal with |- (if ?b then _ else _) = _ -> _ => destruct b end;
    [discriminate | by intros [= <-]].
Qed.

Lemma create_appointment_400_iff (req : AppointmentRequest)
    (db : option Database) :
  (create_appointment req db).1
  = Raise (HTTPException 400 "Invalid date or time format") <->
  strptime (date req ++ " " ++ start_time req) appointment_format
  = Raise ValueError.
Proof.
  split.
  - intros H.
    destruct (strptime (date req ++ " " ++ start_time req) appointment_format)
      as [s | err] eqn:Hp; [| by rewrite (strptime_raises _ _ _ Hp)].
    exfalso.
    destruct (timedelta_minutes (duration_minutes req) ≫= add s)
      as [e | err] eqn:He.
    + rewrite (create_appointment_checked _ _ _ _ Hp He) in H.
      destruct (overlapping db (doctor_id req) s e); [| discriminate].
      by destruct db.
    + rewrite (create_appointment_out_of_range _ _ _ _ Hp He) in H.
      by rewrite (end_instant_raises _ _ _ He) in H.
  - intros Hp. by rewrite (create_appointment_bad_format _ _ Hp).
Qed.

(** X19.  For a request whose date and start_time are zero-padded
    (YYYY-MM-DD and HH:MM), [create_appointment] answers 400 exactly when
    the numbers are no calendar date and time of day; a day the month
    does not have is refused at every time of day, and 29 February is
    taken in leap years only. *)
Theorem create_appointment_calendar_check (req : AppointmentRequest)
    (db : option Database) (y m d h mi : Z)
    (Hy : 0 <= y <= 9999) (Hm : 0 <= m <= 99) (Hd : 0 <= d <= 99)
    (Hh : 0 <= h <= 99) (Hmi : 0 <= mi <= 99)
    (Hdate : date req = iso_date y m d)
    (Htime : start_time req = iso_time h mi) :
  (create_appointment req db).1
  = Raise (HTTPException 400 "Invalid date or time format") <->
  _check_date_fields y m d && _check_time_fields h mi = false.
Proof.
  rewrite create_appointment_400_iff.
  rewrite Hdate, Htime, strptime_zero_padded by done.
  unfold mk_datetime. destruct (_ && _); split; congruence.
Qed.

Lemma create_appointment_calendar_check_witness :
  ((create_appointment (Sample.request "D" "2024-02-30" "10:00" 30)
      Sample.empty_store).1
   = Raise (HTTPException 400 "Invalid date or time format") <->
   _check_date_fields 2024 2 30 && _check_time_fields 10 0 = false) /\
  ((create_appointment (Sample.request "D" "2024-02-29" "10:00" 30)
      Sample.empty_store).1
   = Raise (HTTPException 400 "Invalid date or time format") <->
   _check_date_fields 2024 2 29 && _check_time_fields 10 0 = false).
Proof.
  split.
  - refine (create_appointment_calendar_check
              (Sample.request "D" "2024-02-30" "10:00" 30) Sample.empty_store
              2024 2 30 10 0 _ _ _ _ _ _ _); try lia; reflexivity.
  - refine (create_appointment_calendar_check
              (Sample.request "D" "2024-02-29" "10:00" 30) Sample.empty_store
              2024 2 29 10 0 _ _ _ _ _ _ _); try lia; reflexivity.
Defined.

(** The two dates of the witness: 30 February is refused, 29 February
    2024 is stored. *)
Example leap_day_requests :
  (create_appointment (Sample.request "D" "2024-02-30" "10:00" 30)
     Sample.empty_store).1
  = Raise (HTTPException 400 "Invalid date or time format") /\
  (create_appointment (Sample.request "D" "2024-02-29" "10:00" 30)
     Sample.empty_store).1 = Ok 0%N /\
  (create_appointment (Sample.request "D" "2023-02-29" "10:00" 30)
     Sample.empty_store).1
  = Raise (HTTPException 400 "Invalid date or time format").
Proof. vm_compute. repeat split. Qed.

Lemma mk_datetime_time_of_day (y m d h mi : Z) (t : datetime) :
  mk_datetime y m d h mi = Ok t ->
  exists midnight,
    mk_datetime y m d 0 0 = Ok midnight /\
    midnight <= t < midnight + us_per_day.
Proof.
  unfold mk_datetime.
  destruct (_check_date_fields y m d); [| discriminate].
  destruct (_check_time_fields h mi) eqn:Ht; [| discriminate].
  cbn [andb]. intros [= <-].
  unfold _check_time_fields in Ht.
  repeat (apply andb_true_iff in Ht as [Ht ?]).
  eexists. split; [reflexivity |].
  unfold us_per_day, us_per_minute. lia.
Qed.

(** X20.  An appointment created from a zero-padded date and time is
    part of what [list_appointments] answers when both from_date and
    to_date are that date, as long as the day after it is still a
    datetime. *)
Theorem created_appointment_is_listed_on_its_day
    (req : AppointmentRequest) (db db' : option Database) (id : ObjectId)
    (y m d h mi : Z) (midnight : datetime)
    (Hy : 0 <= y <= 9999) (Hm : 0 <= m <= 99) (Hd : 0 <= d <= 99)
    (Hh : 0 <= h <= 99) (Hmi : 0 <= mi <= 99)
    (Hdate : date req = iso_date y m d)
    (Htime : start_time req = iso_time h mi)
    (Hmidnight : mk_datetime y m d 0 0 = Ok midnight)
    (Hnext : midnight + us_per_day <= datetime_max)
    (Hrun : create_appointment req db = (Ok id, db')) :
  exists l a,
    list_appointments None None None (Some (date req)) (Some (date req)) db'
    = (Ok l, db') /\
    In (id, a) l /\
    midnight <= Appointment.starts_at a < midnight + us_per_day.
Proof.
  apply create_appointment_ok_inv in Hrun
    as (s & e & st & Hp & _ & _ & _ & -> & -> & ->).
  rewrite Hdate, Htime, strptime_zero_padded in Hp by done.
  destruct (mk_datetime_time_of_day _ _ _ _ _ _ Hp) as (mn & Hmn & Hs).
  rewrite Hmidnight in Hmn. injection Hmn as <-.
  assert (iso_date y m d <> "") as Hne by discriminate.
  assert (strptime (iso_date y m d) "%Y-%m-%d" = Ok midnight) as Hpd
    by (by rewrite strptime_zero_padded_date).
  assert (lower_bound (Some (iso_date y m d)) = Ok (Some midnight)) as Hlo.
  { unfold lower_bound.
    assert (truthy (Some (iso_date y m d)) = true) as -> by reflexivity.
    change (default "" (Some (iso_date y m d))) with (iso_date y m d).
    by rewrite Hpd. }
  pose proof (upper_bound_next_midnight _ _ Hne Hpd Hnext) as Hhi.
  exists (List.filter
            (fun x => eq_if None (Appointment.clinic_id x.2)
                      && eq_if None (Appointment.doctor_id x.2)
                      && eq_if None (Appointment.patient_id x.2)
                      && in_bounds (Some midnight) (Some (midnight + us_per_day))
                           (Appointment.starts_at x.2))
            (stored_appointments
               (Some (insert_one (next_id st, appointment_of req s e) st)))),
    (appointment_of req s e).
  split; [| split].
  - rewrite Hdate. by apply list_appointments_filtered.
  - apply filter_In. split.
    + cbn. apply in_or_app. right. by left.
    + cbn. unfold in_bounds.
      apply andb_true_iff. split; apply Z.leb_le; lia.
  - exact Hs.
Qed.
Lemma created_appointment_is_listed_on_its_day_witness :
  exists l a,
    list_appointments None None None (Some "2024-01-15") (Some "2024-01-15")
      (Some (mkDatabase
               [(0%N, Sample.booked);
                (1%N, Appointment.mk "clinic" "D" "patient"
                        Sample.t_10_30 63840913200000000 None
                        Appointment.scheduled)] [] [] 2%N))
    = (Ok l,
       Some (mkDatabase
               [(0%N, Sample.booked);
                (1%N, Appointment.mk "clinic" "D" "patient"
                        Sample.t_10_30 63840913200000000 None
                        Appointment.scheduled)] [] [] 2%N)) /\
    In (1%N, a) l /\
    Day.jan_15 <= Appointment.starts_at a < Day.jan_15 + us_per_day.
Proof.
  refine (created_appointment_is_listed_on_its_day
            (Sample.request "D" "2024-01-15" "10:30" 30)
            Sample.one_booking _ 1%N 2024 1 15 10 30 Day.jan_15
            _ _ _ _ _ _ _ _ _ _); try lia.
  - reflexivity.
  - reflexivity.
  - vm_compute. reflexivity.
  - vm_compute. discriminate.
  - vm_compute. reflexivity.
Defined.

(** On the last day of the calendar the upper bound cannot be formed:
    the listing raises [OverflowError]. *)
Example list_appointments_last_day :
  list_appointments None None None None (Some "9999-12-31") Day.store
  = (Raise OverflowError, Day.store).
Proof. vm_compute. reflexivity. Qed.

(** ** Fields without the leading zero *)

Lemma append_cons (c : ascii) (s t : string) :
  (String c s ++ t)%string = String c (s ++ t)%string.
Proof. reflexivity. Qed.

Lemma append_nil (t : string) : ("" ++ t)%string = t.
Proof. reflexivity. Qed.

Lemma append_assoc (a b c : string) :
  ((a ++ b) ++ c)%string = (a ++ (b ++ c))%string.
Proof.
  induction a as [| x a IH]; [reflexivity |].
  by rewrite !append_cons, IH.
Qed.

Lemma rmatch_class_nil {A : Type} (p : charclass) (g : gmap string string)
    (k : string -> gmap string string -> option A) :
  rmatch (Class p) "" g k = None.
Proof. reflexivity. Qed.

Ltac step_short :=
  repeat first
    [ rewrite rmatch_group | rewrite rmatch_or | rewrite rmatch_cat
    | rewrite rmatch_class | rewrite rmatch_lit | rewrite rmatch_class_nil ];
  eval_tests; cbv beta iota.

Lemma rmatch_month_short {A : Type} (a : Z) (rest : string)
    (g : gmap string string) (k : string -> gmap string string -> option A) :
  0 <= a <= 9 ->
  rmatch month_re (String (digit_char a) (String "-" rest)) g k
  = if 1 <=? a
    then k (String "-" rest) (<["m" := one_digit a]> g)
    else None.
Proof.
  intros Ha. unfold month_re, d2, rng, one_digit.
  each_digit a Ha; literal_digits; step_short; rewrite ?taken1;
    rewrite ?or_none; reflexivity.
Qed.

Lemma rmatch_day_short {A : Type} (a : Z) (rest : string)
    (g : gmap string string) (k : string -> gmap string string -> option A) :
  0 <= a <= 9 ->
  rmatch day_re (String (digit_char a) (String " " rest)) g k
  = if 1 <=? a
    then k (String " " rest) (<["d" := one_digit a]> g)
    else None.
Proof.
  intros Ha. unfold day_re, d2, rng, any_digit, one_digit.
  each_digit a Ha; literal_digits; step_short; rewrite ?taken1;
    rewrite ?or_none; reflexivity.
Qed.

Lemma rmatch_hour_short {A : Type} (a : Z) (rest : string)
    (g : gmap string string) (k : string -> gmap string string -> option A) :
  0 <= a <= 9 ->
  rmatch hour_re (String (digit_char a) (String ":" rest)) g k
  = k (String ":" rest) (<["H" := one_digit a]> g).
Proof.
  intros Ha. unfold hour_re, d2, rng, any_digit, one_digit.
  each_digit a Ha; literal_digits; step_short; rewrite ?taken1;
    rewrite ?or_none; reflexivity.
Qed.

Lemma rmatch_minute_short_end (a : Z) (g : gmap string string) :
  0 <= a <= 9 ->
  rmatch minute_re (one_digit a) g found
  = Some ("", <["M" := one_digit a]> g).
Proof.
  intros Ha. unfold minute_re, d2, rng, any_digit, one_digit, found.
  each_digit a Ha; literal_digits; step_short; reflexivity.
Qed.

Lemma month_step {A : Type} (n : Z) (s rest : string)
    (g : gmap string string) (k : string -> gmap string string -> option A) :
  0 <= n <= 99 -> written n s -> guarded k ->
  rmatch month_re (s ++ String "-" rest) g k
  = if (1 <=? n) && (n <=? 12)
    then k (String "-" rest) (<["m" := s]> g)
    else None.
Proof.
  intros Hn [-> | [Hs ->]] Hk.
  - destruct (digits_of n Hn) as (H1 & H2 & E).
    unfold two_digits. rewrite !append_cons, append_nil.
    rewrite rmatch_month by done. by rewrite E.
  - unfold one_digit at 1. rewrite append_cons, append_nil.
    rewrite rmatch_month_short by lia.
    by replace (n <=? 12) with true by (symmetry; apply Z.leb_le; lia);
      rewrite andb_true_r.
Qed.

Lemma day_step {A : Type} (n : Z) (s rest : string)
    (g : gmap string string) (k : string -> gmap string string -> option A) :
  0 <= n <= 99 -> written n s -> guarded k ->
  rmatch day_re (s ++ String " " rest) g k
  = if (1 <=? n) && (n <=? 31)
    then k (String " " rest) (<["d" := s]> g)
    else None.
Proof.
  intros Hn [-> | [Hs ->]] Hk.
  - destruct (digits_of n Hn) as (H1 & H2 & E).
    unfold two_digits. rewrite !append_cons, append_nil.
    rewrite rmatch_day by done. by rewrite E.
  - unfold one_digit at 1. rewrite append_cons, append_nil.
    rewrite rmatch_day_short by lia.
    by replace (n <=? 31) with true by (symmetry; apply Z.leb_le; lia);
      rewrite andb_true_r.
Qed.

Lemma hour_step {A : Type} (n : Z) (s rest : string)
    (g : gmap string string) (k : string -> gmap string string -> option A) :
  0 <= n <= 99 -> written n s -> guarded k ->
  rmatch hour_re (s ++ String ":" rest) g k
  = if n <=? 23
    then k (String ":" rest) (<["H" := s]> g)
    else None.
Proof.
  intros Hn [-> | [Hs ->]] Hk.
  - destruct (digits_of n Hn) as (H1 & H2 & E).
    unfold two_digits. rewrite !append_cons, append_nil.
    rewrite rmatch_hour by done. by rewrite E.
  - unfold one_digit at 1. rewrite append_cons, append_nil.
    rewrite rmatch_hour_short by lia.
    by replace (n <=? 23) with true by (symmetry; apply Z.leb_le; lia).
Qed.

Lemma written_starts_with_digit (n : Z) (s : string) :
  0 <= n <= 99 -> written n s ->
  exists c s', s = String c s' /\ digit c = true.
Proof.
  intros Hn [-> | [Hs ->]].
  - destruct (digits_of n Hn) as (H1 & _ & _).
    eexists _, _. split; [reflexivity |]. by apply digit_char_digit.
  - eexists _, _. split; [reflexivity |]. apply digit_char_digit. lia.
Qed.

Lemma py_int_written (n : Z) (s : string) :
  0 <= n <= 99 -> written n s -> py_int s = Ok n.
Proof.
  intros Hn [-> | [Hs ->]].
  - destruct (digits_of n Hn) as (H1 & H2 & E).
    unfold two_digits. rewrite py_int_digits2 by done. by rewrite E.
  - assert (0 <= n <= 9) as Hd by lia. unfold one_digit.
    each_digit n Hd; reflexivity.
Qed.

(** The leading zeros are optional: with each of month, day, hour
    and minute written with two digits or, below ten, with one, the
    input is parsed to the datetime of its five numbers, and refused
    exactly when they are no calendar date and time of day. *)
Lemma strptime_leading_zeros_optional (y m d h mi : Z)
    (ms ds hs ns : string)
    (Hy : 0 <= y <= 9999) (Hm : 0 <= m <= 99) (Hd : 0 <= d <= 99)
    (Hh : 0 <= h <= 99) (Hmi : 0 <= mi <= 99)
    (Wm : written m ms) (Wd : written d ds) (Wh : written h hs)
    (Wn : written mi ns) :
  strptime ((four_digits y ++ "-" ++ ms ++ "-" ++ ds) ++ " " ++ hs ++ ":" ++ ns)
    appointment_format
  = mk_datetime y m d h mi.
Proof.
  destruct (digits_of_year y Hy) as (Hy1 & Hy2 & Hy3 & Hy4 & Ey).
  unfold strptime. rewrite pattern_appointment_format.
  unfold re_match, datetime_re, four_digits, two_digits.
  rewrite !append_assoc, !append_cons, !append_nil.
  rewrite rmatch_cat, rmatch_year by done.
  rewrite rmatch_cat, rmatch_lit. eval_tests. cbv beta iota.
  rewrite rmatch_cat, (month_step m); [| done | done | by apply guarded_lit].
  destruct ((1 <=? m) && (m <=? 12)) eqn:Hmonth.
  2: { symmetry. apply mk_datetime_invalid; [| lia | lia].
       by rewrite Hmonth. }
  rewrite rmatch_cat, rmatch_lit. eval_tests. cbv beta iota.
  rewrite rmatch_cat, (day_step d); [| done | done | by apply guarded_plus].
  destruct ((1 <=? d) && (d <=? 31)) eqn:Hday.
  2: { symmetry. apply mk_datetime_invalid; [| lia | lia].
       by rewrite Hmonth, Hday. }
  destruct (written_starts_with_digit h hs Hh Wh) as (c & hs' & Ehs & Hc).
  rewrite rmatch_cat. rewrite Ehs at 1. rewrite append_cons.
  rewrite rmatch_plus_stop; [| reflexivity | by apply digit_not_space].
  rewrite <- append_cons, <- Ehs.
  rewrite rmatch_cat, (hour_step h); [| done | done | by apply guarded_lit].
  destruct (h <=? 23) eqn:Hhour.
  2: { symmetry. apply mk_datetime_invalid; [| lia | lia].
       by rewrite Hmonth, Hday, Hhour. }
  rewrite rmatch_cat, rmatch_lit. eval_tests. cbv beta iota.
  fold found.
  assert (forall g,
            (match rmatch minute_re ns g found with
             | Some (rest, g') =>
                 if negb (rest =? "")%string then None else Some g'
             | None => None
             end)
            = if mi <=? 59 then Some (<["M" := ns]> g) else None) as Hmin.
  { intros g. destruct Wn as [-> | [Hs ->]].
    - destruct (digits_of mi Hmi) as (H1 & H2 & E).
      unfold two_digits. rewrite rmatch_minute_end by done.
      destruct (mi / 10 <=? 5) eqn:H5.
      + apply Z.leb_le in H5.
        replace (mi <=? 59) with true by (symmetry; apply Z.leb_le; lia).
        reflexivity.
      + apply Z.leb_gt in H5.
        replace (mi <=? 59) with false by (symmetry; apply Z.leb_gt; lia).
        reflexivity.
    - rewrite rmatch_minute_short_end by lia.
      replace (mi <=? 59) with true by (symmetry; apply Z.leb_le; lia).
      reflexivity. }
  match goal with
  | |- match rmatch minute_re ns ?g found with _ => _ end = _ =>
      specialize (Hmin g); destruct (rmatch minute_re ns g found)
        as [[rest g'] |]
  end.
  - destruct (negb (rest =? "")%string).
    + destruct (mi <=? 59) eqn:Hminute; [discriminate |].
      symmetry. apply mk_datetime_invalid; [| lia | lia].
      by rewrite Hmonth, Hday, Hhour, Hminute.
    + destruct (mi <=? 59) eqn:Hminute; [| discriminate].
      injection Hmin as ->. unfold group_int.
      destruct (group_lookups
        (String (digit_char (y / 1000)) (String (digit_char (y / 100 mod 10))
           (String (digit_char (y mod 100 / 10))
              (String (digit_char (y mod 100 mod 10)) ""))))
        ms ds hs ns) as (-> & -> & -> & -> & ->).
      rewrite py_int_digits4 by done.
      rewrite (py_int_written m ms Hm Wm), (py_int_written d ds Hd Wd),
        (py_int_written h hs Hh Wh), (py_int_written mi ns Hmi Wn).
      cbn [mbind result_bind]. by rewrite Ey.
  - destruct (mi <=? 59) eqn:Hminute; [discriminate |].
    symmetry. apply mk_datetime_invalid; [| lia | lia].
    by rewrite Hmonth, Hday, Hhour, Hminute.
Qed.
(** [create_appointment] reads date and start_time through the parse of
    their concatenation only. *)
Lemma create_appointment_parse_only (req req' : AppointmentRequest)
    (db : option Database) :
  clinic_id req' = clinic_id req -> doctor_id req' = doctor_id req ->
  patient_id req' = patient_id req -> reason req' = reason req ->
  duration_minutes req' = duration_minutes req ->
  strptime (date req' ++ " " ++ start_time req') appointment_format
  = strptime (date req ++ " " ++ start_time req) appointment_format ->
  create_appointment req' db = create_appointment req db.
Proof.
  intros Hc Hd Hp Hr Hn Hparse.
  destruct (strptime (date req ++ " " ++ start_time req) appointment_format)
    as [s | err] eqn:Hs.
  - destruct (timedelta_minutes (duration_minutes req) ≫= add s)
      as [e | err] eqn:He.
    + rewrite (create_appointment_checked req db s e Hs He).
      rewrite <- Hn in He.
      rewrite (create_appointment_checked req' db s e Hparse He).
      unfold appointment_of. by rewrite Hc, Hd, Hp, Hr.
    + rewrite (create_appointment_out_of_range req db s err Hs He).
      rewrite <- Hn in He.
      by rewrite (create_appointment_out_of_range req' db s err Hparse He).
  - pose proof (strptime_raises _ _ _ Hs) as ->.
    rewrite (create_appointment_bad_format req db Hs).
    by rewrite (create_appointment_bad_format req' db Hparse).
Qed.

(** X21.  [create_appointment] takes months, days, hours and minutes
    written without their leading zero: such a request is answered, and
    changes the store, exactly as the zero-padded request does. *)
Theorem create_appointment_leading_zeros_optional
    (clinic doctor patient : string) (minutes : Z) (why : option string)
    (db : option Database) (y m d h mi : Z) (ms ds hs ns : string)
    (Hy : 0 <= y <= 9999) (Hm : 0 <= m <= 99) (Hd : 0 <= d <= 99)
    (Hh : 0 <= h <= 99) (Hmi : 0 <= mi <= 99)
    (Wm : written m ms) (Wd : written d ds) (Wh : written h hs)
    (Wn : written mi ns) :
  create_appointment
    (mkAppointmentRequest clinic doctor patient
       (four_digits y ++ "-" ++ ms ++ "-" ++ ds) (hs ++ ":" ++ ns)
       minutes why) db
  = create_appointment
      (mkAppointmentRequest clinic doctor patient
         (iso_date y m d) (iso_time h mi) minutes why) db.
Proof.
  apply create_appointment_parse_only; try reflexivity.
  cbn [date start_time].
  rewrite (strptime_leading_zeros_optional y m d h mi ms ds hs ns) by done.
  unfold iso_date, iso_time.
  rewrite (strptime_leading_zeros_optional y m d h mi) by (done || by left).
  reflexivity.
Qed.

Lemma create_appointment_leading_zeros_optional_witness :
  create_appointment
    (mkAppointmentRequest "clinic" "D" "patient" "2024-1-5" "9:5" 30 None)
    Sample.one_booking
  = create_appointment
      (mkAppointmentRequest "clinic" "D" "patient" "2024-01-05" "09:05" 30
         None)
      Sample.one_booking.
Proof.
  refine (create_appointment_leading_zeros_optional "clinic" "D" "patient"
            30 None Sample.one_booking 2024 1 5 9 5 "1" "5" "9" "5"
            _ _ _ _ _ _ _ _ _); try lia;
    right; split; (lia || reflexivity).
Defined.

(** ** The answers, by membership *)

Lemma eq_if_true (v : option string) (field : string) :
  eq_if v field = true <-> forall x, v = Some x -> x <> "" -> field = x.
Proof.
  unfold eq_if, truthy. destruct v as [x |].
  - destruct (String.eqb_spec x "") as [-> | Hne]; cbn [negb default].
    + split; [| done]. intros _ y [= <-] Hy. done.
    + rewrite String.eqb_eq. split.
      * intros <- y [= <-] _. reflexivity.
      * intros H. symmetry. by apply H.
  - split; [| done]. intros _ y [=].
Qed.

(** X1.  [list_invoices] answers with the stored invoices, in store
    order, that have the clinic_id and the status asked for; a parameter
    that is absent or empty asks for nothing.  The store is unchanged. *)
Theorem list_invoices_returns (c s : option string) (db : option Database) :
  exists l,
    list_invoices c s db = (Ok l, db) /\
    (exists f, l = List.filter f (stored_invoices db)) /\
    forall d, In d l <->
      In d (stored_invoices db) /\
      (forall x, c = Some x -> x <> "" -> Invoice.clinic_id d.2 = x) /\
      (forall x, s = Some x -> x <> "" ->
         Invoice.status_str (Invoice.status d.2) = x).
Proof.
  eexists. split; [apply list_invoices_run |]. split; [by eexists |].
  intros d. by rewrite filter_In, andb_true_iff, !eq_if_true.
Qed.

(** X2.  [list_payments] answers with the stored payments, in store
    order, that have the clinic_id and the invoice_id asked for; a
    parameter that is absent or empty asks for nothing.  The store is
    unchanged. *)
Theorem list_payments_returns (c i : option string) (db : option Database) :
  exists l,
    list_payments c i db = (Ok l, db) /\
    (exists f, l = List.filter f (stored_payments db)) /\
    forall d, In d l <->
      In d (stored_payments db) /\
      (forall x, c = Some x -> x <> "" -> Payment.clinic_id d.2 = x) /\
      (forall x, i = Some x -> x <> "" -> Payment.invoice_id d.2 = x).
Proof.
  eexists. split; [apply list_payments_run |]. split; [by eexists |].
  intros d. by rewrite filter_In, andb_true_iff, !eq_if_true.
Qed.

Lemma in_bounds_true (lo hi : option datetime) (t : datetime) :
  in_bounds lo hi t = true <->
  (forall b, lo = Some b -> b <= t) /\ (forall b, hi = Some b -> t <= b).
Proof.
  unfold in_bounds. rewrite andb_true_iff.
  destruct lo as [l |], hi as [h |]; rewrite ?Z.leb_le; split.
  - intros [Hl Hh]. split; intros b [= <-]; done.
  - intros [Hl Hh]. split; [by apply Hl | by apply Hh].
  - intros [Hl _]. split; [intros b [= <-]; done | intros b [=]].
  - intros [Hl _]. split; [by apply Hl | done].
  - intros [_ Hh]. split; [intros b [=] | intros b [= <-]; done].
  - intros [_ Hh]. split; [done | by apply Hh].
  - intros _. split; intros b [=].
  - done.
Qed.



Lemma eqb_filter_In {A : Type} (field : A -> string) (c : string)
    (l : list A) (x : A) :
  In x (List.filter (fun d => String.eqb c (field d)) l)
  <-> In x l /\ field x = c.
Proof.
  rewrite filter_In, String.eqb_eq. split; intros [H1 H2]; by split.
Qed.


(** X22.  Sending a stored request again: right after
    [create_appointment] has stored a request, the same request is
    turned down with 409 "overlap" exactly when its duration_minutes is
    positive; with a duration of zero or less the appointment does not
    meet itself and is stored a second time. *)
Theorem repeated_request (req : AppointmentRequest)
    (db db' : option Database) (id : ObjectId)
    (Hrun : create_appointment req db = (Ok id, db')) :
  ((create_appointment req db').1 = Raise (HTTPException 409 "overlap")
   <-> duration_minutes req > 0) /\
  ((exists id', (create_appointment req db').1 = Ok id')
   <-> duration_minutes req <= 0).
Proof.
  apply create_appointment_ok_inv in Hrun
    as (s & e & st & Hp & -> & Hr & Hov & -> & -> & ->).
  pose proof (end_instant_ok s (duration_minutes req)
                (strptime_range _ _ _ Hp) Hr) as He.
  rewrite (create_appointment_checked _ _ _ _ Hp He).
  set (e := s + duration_minutes req * us_per_minute) in *.
  assert (overlapping (Some (insert_one (next_id st, appointment_of req s e) st))
            (doctor_id req) s e
          = if s <? e then [(next_id st, appointment_of req s e)] else [])
    as ->.
  { unfold overlapping in *.
    cbn [insert_one appointment_collection appointments].
    rewrite List.filter_app, Hov. cbn [List.filter app].
    destruct (doc_matches _ (next_id st, appointment_of req s e)) eqn:Hm.
    - apply overlap_query_matches in Hm as (_ & Hlt & _). cbn in Hlt.
      by replace (s <? e) with true by (symmetry; apply Z.ltb_lt; lia).
    - destruct (s <? e) eqn:Hlt; [| reflexivity].
      apply Z.ltb_lt in Hlt.
      assert (doc_matches (overlap_query (doctor_id req) s e)
                (next_id st, appointment_of req s e) = true) as Hyes
        by (apply overlap_query_matches; cbn; split; [done | lia]).
      congruence. }
  assert (s < e <-> duration_minutes req > 0) as Hpos
    by (unfold e, us_per_minute; lia).
  destruct (s <? e) eqn:Hlt.
  - apply Z.ltb_lt in Hlt. split; split.
    + intros _. by apply Hpos.
    + reflexivity.
    + intros [id' [=]].
    + lia.
  - apply Z.ltb_ge in Hlt. split; split.
    + discriminate.
    + lia.
    + lia.
    + intros _. eexists. reflexivity.
Qed.

Lemma repeated_request_witness :
  ((create_appointment (Sample.request "D" "2024-01-15" "10:30" 30)
      (Some (mkDatabase
               [(0%N, Sample.booked);
                (1%N, Appointment.mk "clinic" "D" "patient"
                        Sample.t_10_30 63840913200000000 None
                        Appointment.scheduled)] [] [] 2%N))).1
   = Raise (HTTPException 409 "overlap") <-> 30 > 0) /\
  ((exists id',
      (create_appointment (Sample.request "D" "2024-01-15" "10:30" 30)
         (Some (mkDatabase
                  [(0%N, Sample.booked);
                   (1%N, Appointment.mk "clinic" "D" "patient"
                           Sample.t_10_30 63840913200000000 None
                           Appointment.scheduled)] [] [] 2%N))).1 = Ok id')
   <-> 30 <= 0).
Proof.
  refine (repeated_request (Sample.request "D" "2024-01-15" "10:30" 30)
            Sample.one_booking _ 1%N _).
  vm_compute. reflexivity.
Defined.

(** A request of no duration is stored twice. *)
Example repeated_empty_request :
  run Sample.empty_store
    [ PostAppointment (Sample.request "D" "2024-01-15" "10:00" 0);
      PostAppointment (Sample.request "D" "2024-01-15" "10:00" 0) ]
  = Some (mkDatabase
            [(0%N, Appointment.mk "clinic" "D" "patient" Sample.t_10_00
                     Sample.t_10_00 None Appointment.scheduled);
             (1%N, Appointment.mk "clinic" "D" "patient" Sample.t_10_00
                     Sample.t_10_00 None Appointment.scheduled)]
            [] [] 2%N).
Proof. vm_compute. reflexivity. Qed.
